(** * The Feishu group-robot channel ([src/lib/channels/feishu.ts])

    A shallow embedding of the channel: its static configuration, the
    request signature [generateFeishuSign] and the delivery operation
    [sendMessage].

    The platform under the channel.  [TextEncoder], the HMAC with SHA-256
    of Web Crypto and [btoa] are written out (FIPS 180-4, RFC 2104,
    RFC 4648).  [JSON.parse], [JSON.stringify] and the printing of numbers
    are parameters of the channel; the module [Json] is a codec to run it
    with.  The clock and [fetch] are the [World] a call is made in.

    Conventions.  A JavaScript string is a [string] holding the bytes of its
    UTF-8 encoding, so [TextEncoder.encode] is the list of those bytes.  A
    byte is a [Z] in [0, 256); a 32-bit word is a [Z] in [0, 2^32) with the
    wrap-around written out.  [sendMessage] runs in a state and error monad
    over the caller's message object, the receiver and the trace of console
    and network calls. *)

From Stdlib Require Import ZArith List String Ascii Bool Lia.
From Stdlib Require DecimalString DecimalPos DecimalZ.
Import ListNotations.

Local Open Scope string_scope.
Local Open Scope list_scope.
Local Open Scope Z_scope.

(** ** Bytes and text *)

Module Bytes.

Definition bytes := list Z.

(** [new TextEncoder().encode(s)] *)
Definition encode (s : string) : bytes :=
  map (fun c => Z.of_N (N_of_ascii c)) (list_ascii_of_string s).

(** [String.fromCharCode(...bs)]: one character per byte. *)
Definition fromCharCode (bs : bytes) : string :=
  string_of_list_ascii (map (fun b => ascii_of_N (Z.to_N b)) bs).

Definition is_byte (b : Z) : Prop := 0 <= b < 256.

End Bytes.

(** ** SHA-256 (FIPS 180-4) *)

Module SHA256.

Definition w32 (x : Z) : Z := x mod 2 ^ 32.

Definition add32 (a b : Z) : Z := w32 (a + b).

Definition rotr (n x : Z) : Z :=
  Z.lor (Z.shiftr x n) (w32 (Z.shiftl x (32 - n))).

Definition Ch (x y z : Z) : Z :=
  Z.lxor (Z.land x y) (Z.land (Z.lnot x) z).

Definition Maj (x y z : Z) : Z :=
  Z.lxor (Z.lxor (Z.land x y) (Z.land x z)) (Z.land y z).

Definition Sigma0 (x : Z) : Z :=
  Z.lxor (Z.lxor (rotr 2 x) (rotr 13 x)) (rotr 22 x).

Definition Sigma1 (x : Z) : Z :=
  Z.lxor (Z.lxor (rotr 6 x) (rotr 11 x)) (rotr 25 x).

Definition sigma0 (x : Z) : Z :=
  Z.lxor (Z.lxor (rotr 7 x) (rotr 18 x)) (Z.shiftr x 3).

Definition sigma1 (x : Z) : Z :=
  Z.lxor (Z.lxor (rotr 17 x) (rotr 19 x)) (Z.shiftr x 10).

(** The constants are defined by FIPS 180-4 from the first primes: the
    first 32 bits of the fractional part of the square root (initial hash
    value, eight primes) and of the cube root (round constants, sixty-four
    primes). *)
Definition is_prime (n : Z) : bool :=
  forallb (fun d => negb (n mod Z.of_nat d =? 0)) (seq 2 (Z.to_nat n - 2)).

Definition primes (count : nat) : list Z :=
  firstn count (filter is_prime (map Z.of_nat (seq 2 310))).

(** The integer cube root, bit by bit from the top. *)
Fixpoint cube_root (bits : nat) (n r : Z) : Z :=
  match bits with
  | O => r
  | S b =>
      let c := r + 2 ^ Z.of_nat b in
      cube_root b n (if c * c * c <=? n then c else r)
  end.

Definition K : list Z :=
  Eval vm_compute in map (fun p => w32 (cube_root 40 (p * 2 ^ 96) 0)) (primes 64).

Definition H0 : list Z :=
  Eval vm_compute in map (fun p => w32 (Z.sqrt (p * 2 ^ 64))) (primes 8).

(** Big-endian encodings. *)
Fixpoint be_bytes (n : nat) (x : Z) : list Z :=
  match n with
  | O => []
  | S n' => Z.shiftr x (8 * Z.of_nat n') mod 256 :: be_bytes n' x
  end.

Definition be_word (bs : list Z) : Z :=
  fold_left (fun acc b => acc * 256 + b) bs 0.

(** Padding: a 1 bit, zeros up to 56 mod 64 bytes, the bit length on 64 bits. *)
Definition pad (msg : list Z) : list Z :=
  let len := Z.of_nat (List.length msg) in
  msg ++ [0x80] ++ repeat 0 (Z.to_nat ((55 - len) mod 64)) ++ be_bytes 8 (8 * len).

Fixpoint chunks (fuel : nat) (size : nat) (bs : list Z) : list (list Z) :=
  match fuel, bs with
  | O, _ | _, [] => []
  | S fuel', _ => firstn size bs :: chunks fuel' size (skipn size bs)
  end.

Definition words_of_block (block : list Z) : list Z :=
  map be_word (chunks 16 4 block).

(** Message schedule: sixteen words of the block, then forty-eight derived ones. *)
Fixpoint schedule (n : nat) (W : list Z) : list Z :=
  match n with
  | O => W
  | S n' =>
      let t := List.length W in
      let w k := nth (t - k) W 0 in
      schedule n'
        (W ++ [add32 (add32 (sigma1 (w 2%nat)) (w 7%nat))
                     (add32 (sigma0 (w 15%nat)) (w 16%nat))])
  end.

Record regs := Regs { ra : Z; rb : Z; rc : Z; rd : Z; re : Z; rf : Z; rg : Z; rh : Z }.

Definition round (s : regs) (kw : Z * Z) : regs :=
  let (k, w) := kw in
  let T1 := add32 (add32 (add32 (add32 (rh s) (Sigma1 (re s))) (Ch (re s) (rf s) (rg s))) k) w in
  let T2 := add32 (Sigma0 (ra s)) (Maj (ra s) (rb s) (rc s)) in
  Regs (add32 T1 T2) (ra s) (rb s) (rc s) (add32 (rd s) T1) (re s) (rf s) (rg s).

Definition regs_of (h : list Z) : regs :=
  match h with
  | [a; b; c; d; e; f; g; h'] => Regs a b c d e f g h'
  | _ => Regs 0 0 0 0 0 0 0 0
  end.

Definition list_of (s : regs) : list Z :=
  [ra s; rb s; rc s; rd s; re s; rf s; rg s; rh s].

Definition compress (h : list Z) (block : list Z) : list Z :=
  let W := schedule 48 (words_of_block block) in
  let s := fold_left round (combine K W) (regs_of h) in
  map (fun p => add32 (fst p) (snd p)) (combine h (list_of s)).

Definition digest (msg : list Z) : list Z :=
  let padded := pad msg in
  let blocks := chunks (List.length padded) 64 padded in
  flat_map (be_bytes 4) (fold_left compress blocks H0).

End SHA256.

(** ** HMAC (RFC 2104) over SHA-256 *)

Module HMAC.

Definition block_size : nat := 64.

Definition block_key (key : list Z) : list Z :=
  let k := if (block_size <? List.length key)%nat then SHA256.digest key else key in
  k ++ repeat 0 (block_size - List.length k).

Definition xor_with (c : Z) (bs : list Z) : list Z := map (Z.lxor c) bs.

Definition sha256 (key data : list Z) : list Z :=
  let k := block_key key in
  SHA256.digest (xor_with 0x5c k ++ SHA256.digest (xor_with 0x36 k ++ data)).

End HMAC.

(** ** Base64 (RFC 4648 section 4), as produced by [btoa] *)

Module Base64.

Definition alphabet : string :=
  "ABCDEFGHIJKLMNOPQRSTUVWXYZabcdefghijklmnopqrstuvwxyz0123456789+/".

Definition digit (i : Z) : ascii :=
  match String.get (Z.to_nat i) alphabet with
  | Some c => c
  | None => "="%char
  end.

Fixpoint encode (bs : list Z) : string :=
  match bs with
  | [] => EmptyString
  | [a] =>
      String (digit (Z.shiftr a 2))
     (String (digit (Z.shiftl (Z.land a 3) 4)) "==")
  | [a; b] =>
      String (digit (Z.shiftr a 2))
     (String (digit (Z.lor (Z.shiftl (Z.land a 3) 4) (Z.shiftr b 4)))
     (String (digit (Z.shiftl (Z.land b 15) 2)) "="))
  | a :: b :: c :: rest =>
      String (digit (Z.shiftr a 2))
     (String (digit (Z.lor (Z.shiftl (Z.land a 3) 4) (Z.shiftr b 4)))
     (String (digit (Z.lor (Z.shiftl (Z.land b 15) 2) (Z.shiftr c 6)))
     (String (digit (Z.land c 63)) (encode rest))))
  end.

(** [btoa(s)] for a string of characters below 256. *)
Definition btoa (s : string) : string := encode (Bytes.encode s).

End Base64.

(** ** Completions and errors

    The source raises [new Error(message)] only and tells its failures apart
    by the message.  The engine raises a TypeError on a property read of
    [null] or a failed string conversion.  A platform promise (key import,
    [fetch], [response.json()]) settles to a value or to a rejection, named
    by [reason]; awaiting a rejected one throws it on as it is. *)

Inductive exn : Type :=
| Error (message : string)
| TypeError
| Rejected (reason : string).

Inductive completion (A : Type) : Type :=
| Normal (a : A)
| Throw (e : exn).

Arguments Normal {A} a.
Arguments Throw {A} e.

Inductive settled (A : Type) : Type :=
| Fulfilled (a : A)
| RejectedWith (reason : string).

Arguments Fulfilled {A} a.
Arguments RejectedWith {A} reason.

(** What [await p] gives for a promise settled to [p]. *)
Definition awaited {A : Type} (p : settled A) : completion A :=
  match p with
  | Fulfilled a => Normal a
  | RejectedWith reason => Throw (Rejected reason)
  end.

Definition LF : string := String (ascii_of_nat 10) EmptyString.

(** [n.toString()] for an integral number [n] of magnitude below 10^21. *)
Definition toString (n : Z) : string :=
  DecimalString.NilZero.string_of_int (Z.to_int n).

(** ** The request signature *)

Module Subtle.

Record CryptoKey := { raw : Bytes.bytes }.

(** [crypto.subtle.importKey('raw', keyData, {name: 'HMAC', hash: 'SHA-256'}, false, ['sign'])].
    Web Cryptography API, HMAC import: a key of length zero is refused
    with a DataError. *)
Definition importKey (keyData : Bytes.bytes) : settled CryptoKey :=
  match keyData with
  | [] => RejectedWith "DataError"
  | _ => Fulfilled {| raw := keyData |}
  end.

(** [crypto.subtle.sign('HMAC', key, data)] *)
Definition sign (key : CryptoKey) (data : Bytes.bytes) : Bytes.bytes :=
  HMAC.sha256 (raw key) data.

End Subtle.

Definition generateFeishuSign (secret timestamp : string) : completion string :=
  match awaited (Subtle.importKey (Bytes.encode secret)) with
  | Throw e => Throw e
  | Normal key =>
      let signature := Subtle.sign key (Bytes.encode (timestamp ++ LF ++ secret)%string) in
      Normal (Base64.btoa (Bytes.fromCharCode signature))
  end.

(** The signature of the source: the secret is the HMAC key, and the
    timestamp, a line feed and the secret are the data. *)
Definition source_sign (secret timestamp : string) : string :=
  Base64.encode
    (HMAC.sha256 (Bytes.encode secret)
                 (Bytes.encode timestamp ++ 10 :: Bytes.encode secret)).

(** The construction in the words of the specification: the secret is the
    message, and the timestamp, a line feed and the secret are the key. *)
Definition spec_sign (secret timestamp : string) : string :=
  Base64.encode
    (HMAC.sha256 (Bytes.encode timestamp ++ 10 :: Bytes.encode secret)
                 (Bytes.encode secret)).

(** ** Delivery options and requests *)

(** Modelled from the spec: the declaration of [SendMessageOptions] is in
    [./base]; the spec gives an endpoint and an optional secret, and
    [sendMessage] reads them as [webhook] and [secret].  [None] is an absent
    (undefined) property. *)
Record SendMessageOptions : Type := {
  webhook : option string;
  secret : option string
}.

(** The arguments of [fetch(url, { method, headers, body })]. *)
Record Request : Type := {
  url : string;
  method : string;
  headers : list (string * string);
  body : string
}.

(** [if (x)] on an optional string: absent and empty are both falsy; a truthy
    one is handed on. *)
Definition truthy (x : option string) : option string :=
  match x with
  | Some (String c r) => Some (String c r)
  | Some EmptyString | None => None
  end.

Inductive MsgType : Type := MsgText | MsgPost | MsgInteractive.

Definition msg_type_tag (t : MsgType) : string :=
  match t with
  | MsgText => "text"
  | MsgPost => "post"
  | MsgInteractive => "interactive"
  end.

#[local] Set Warnings "-register-all".

Section Channel.

(** The platform: numbers (IEEE doubles, never computed with here), their
    printing, and the JSON codec.  [JSON_parse s = None] when
    [JSON.parse(s)] throws; [JSON_stringify v space] is
    [JSON.stringify(v, null, space)], and [space = 0] is the one-argument
    call. *)
Context {number : Type}.

Inductive JSValue : Type :=
| JNull
| JBool (b : bool)
| JNum (n : number)
| JStr (s : string)
| JArr (items : list JSValue)
| JObj (props : list (string * JSValue)).

Variable Number_toString : number -> string.
Variable JSON_parse : string -> option JSValue.
Variable JSON_stringify : JSValue -> Z -> string.

(** [typeof v], with [None] for [undefined]. *)
Definition typeof (v : option JSValue) : string :=
  match v with
  | None => "undefined"
  | Some (JBool _) => "boolean"
  | Some (JNum _) => "number"
  | Some (JStr _) => "string"
  | Some JNull | Some (JArr _) | Some (JObj _) => "object"
  end.

(** *** Static configuration *)

(** Modelled from the spec: [ChannelConfig] and the types of its parts are
    declared in [./base]; the spec lists their fields, the optional ones
    being those the source leaves out in some literal. *)
Record FieldSpec : Type := {
  key : string;
  field_description : option string;
  required : option bool;
  component : option string;
  defaultValue : option JSValue;
  placeholder : option JSValue
}.

Record MessageTemplate : Type := {
  template_type : string;
  name : string;
  description : string;
  fields : list FieldSpec
}.

Record ChannelConfig : Type := {
  type : string;
  label : string;
  templates : list MessageTemplate
}.

Record FeishuChannel : Type := { config : ChannelConfig }.

Definition post_placeholder : JSValue :=
  JArr [ JArr [
    JObj [ ("tag", JStr "text"); ("text", JStr "项目有更新: ") ];
    JObj [ ("tag", JStr "a"); ("text", JStr "请查看");
           ("href", JStr "http://www.example.com/") ];
    JObj [ ("tag", JStr "at"); ("user_id", JStr "ou_18eac8********17ad4f02e8bbbb") ] ] ].

Definition card_placeholder : JSValue :=
  JObj [
    ("config", JObj [ ("wide_screen_mode", JBool true) ]);
    ("elements", JArr [
       JObj [ ("tag", JStr "div");
              ("text", JObj [ ("content", JStr "这是一个交互式卡片示例");
                              ("tag", JStr "lark_md") ]) ];
       JObj [ ("tag", JStr "action");
              ("actions", JArr [
                 JObj [ ("tag", JStr "button");
                        ("text", JObj [ ("tag", JStr "plain_text");
                                        ("content", JStr "查看详情") ]);
                        ("url", JStr "https://example.com");
                        ("type", JStr "default") ] ]) ] ]);
    ("header", JObj [
       ("title", JObj [ ("content", JStr "通知标题"); ("tag", JStr "plain_text") ]);
       ("template", JStr "blue") ]) ].

(** The field initialiser [readonly config: ChannelConfig = { ... }]. *)
Definition new_FeishuChannel : FeishuChannel :=
  {| config := {|
       type := "feishu";
       label := "飞书群机器人";
       templates := [
         {| template_type := "text";
            name := "文本消息";
            description := "简单文本消息";
            fields := [
              {| key := "content.text"; field_description := Some "文本内容";
                 required := Some true; component := Some "textarea";
                 defaultValue := None; placeholder := None |};
              {| key := "msg_type"; field_description := None;
                 required := None; component := Some "hidden";
                 defaultValue := Some (JStr "text"); placeholder := None |} ] |};
         {| template_type := "post";
            name := "富文本消息";
            description := "支持标题和格式化内容的富文本消息";
            fields := [
              {| key := "content.post.zh_cn.title"; field_description := Some "标题";
                 required := Some true; component := None;
                 defaultValue := None; placeholder := None |};
              {| key := "content.post.zh_cn.content";
                 field_description := Some "富文本内容(JSON格式), 具体格式请参考<a target='_blank' href='https://open.feishu.cn/document/client-docs/bot-v3/add-custom-bot#f62e72d5'>飞书文档</a>";
                 required := Some true; component := Some "textarea";
                 defaultValue := None;
                 placeholder := Some (JStr (JSON_stringify post_placeholder 0)) |};
              {| key := "msg_type"; field_description := None;
                 required := None; component := Some "hidden";
                 defaultValue := Some (JStr "post"); placeholder := None |} ] |};
         {| template_type := "interactive";
            name := "交互式卡片";
            description := "支持丰富交互元素的卡片消息";
            fields := [
              {| key := "content.card";
                 field_description := Some "卡片内容(JSON格式), 具体格式请参考<a target='_blank' href='https://open.feishu.cn/document/ukTMukTMukTM/ugTNwUjL4UDM14CO1ATN'>飞书卡片文档</a>";
                 required := Some true; component := Some "textarea";
                 defaultValue := None;
                 placeholder := Some (JStr (JSON_stringify card_placeholder 2)) |};
              {| key := "msg_type"; field_description := None;
                 required := None; component := Some "hidden";
                 defaultValue := Some (JStr "interactive"); placeholder := None |} ] |} ]
     |} |}.

Definition getLabel (this : FeishuChannel) : string := label (config this).

Definition getTemplates (this : FeishuChannel) : list MessageTemplate :=
  templates (config this).

(** *** Messages *)

(** [content.post.zh_cn]: [content] is declared an array of blocks, and
    [sendMessage] tests it for a string, so it holds any value. *)
Record ZhCn : Type := { title : string; zh_content : JSValue }.

Record Post : Type := { zh_cn : ZhCn }.

Record Content : Type := {
  text : option string;
  post : option Post;
  card : option JSValue
}.

Record FeishuMessage : Type := {
  msg_type : MsgType;
  content : Content;
  timestamp : option string;
  sign : option string
}.

(** [message.content.post?.zh_cn.content] *)
Definition post_content (m : FeishuMessage) : option JSValue :=
  option_map (fun p => zh_content (zh_cn p)) (post (content m)).

(** [message.content.post.zh_cn.content = v] *)
Definition set_post_content (v : JSValue) (m : FeishuMessage) : FeishuMessage :=
  {| msg_type := msg_type m;
     content := {| text := text (content m);
                   post := option_map
                             (fun p => {| zh_cn := {| title := title (zh_cn p);
                                                      zh_content := v |} |})
                             (post (content m));
                   card := card (content m) |};
     timestamp := timestamp m;
     sign := sign m |}.

(** [message.content.card = v] *)
Definition set_card (v : JSValue) (m : FeishuMessage) : FeishuMessage :=
  {| msg_type := msg_type m;
     content := {| text := text (content m);
                   post := post (content m);
                   card := Some v |};
     timestamp := timestamp m;
     sign := sign m |}.

(** [message.timestamp = t] *)
Definition set_timestamp (t : string) (m : FeishuMessage) : FeishuMessage :=
  {| msg_type := msg_type m; content := content m;
     timestamp := Some t; sign := sign m |}.

(** [message.sign = s] *)
Definition set_sign (s : string) (m : FeishuMessage) : FeishuMessage :=
  {| msg_type := msg_type m; content := content m;
     timestamp := timestamp m; sign := Some s |}.

Definition optional {A : Type} (k : string) (f : A -> JSValue) (x : option A)
  : list (string * JSValue) :=
  match x with
  | Some a => [(k, f a)]
  | None => []
  end.

(** The value [JSON.stringify(message)] walks: absent properties are left
    out; the properties come in the order of the interface declaration. *)
Definition value_of_message (m : FeishuMessage) : JSValue :=
  JObj ([ ("msg_type", JStr (msg_type_tag (msg_type m)));
          ("content",
            JObj (optional "text" JStr (text (content m))
                  ++ optional "post"
                       (fun p => JObj [ ("zh_cn",
                          JObj [ ("title", JStr (title (zh_cn p)));
                                 ("content", zh_content (zh_cn p)) ]) ])
                       (post (content m))
                  ++ optional "card" (fun v => v) (card (content m)))) ]
        ++ optional "timestamp" JStr (timestamp m)
        ++ optional "sign" JStr (sign m)).

(** *** The transport and the clock *)

(** What [sendMessage] uses of a [Response]: its [ok] flag and what
    [await response.json()] settles to. *)
Record Response : Type := {
  ok : bool;
  json : settled JSValue
}.

(** [Date.now()] in milliseconds and the behaviour of [fetch]. *)
Record World : Type := {
  Date_now : Z;
  fetch : Request -> settled Response
}.

Inductive Event : Type :=
| ConsoleLog (label' : string) (m : FeishuMessage)
| Fetch (r : Request).

(** *** String conversion of a response field *)

Fixpoint lookup (k : string) (props : list (string * JSValue)) : option JSValue :=
  match props with
  | [] => None
  | (k', v) :: rest => if String.eqb k k' then Some v else lookup k rest
  end.

(** [data.msg]: reading a property of [null] throws; on an object it is the
    own property (no prototype has a [msg]); otherwise [undefined]. *)
Definition get_msg (data : JSValue) : completion (option JSValue) :=
  match data with
  | JNull => Throw TypeError
  | JObj props => Normal (lookup "msg" props)
  | _ => Normal None
  end.

(** [Array.prototype.join] with the default separator, over the
    conversion [f] of an element: [null] counts as empty. *)
Definition join (f : JSValue -> completion string) : list JSValue -> completion string :=
  fix go (l : list JSValue) : completion string :=
    match l with
    | [] => Normal EmptyString
    | x :: rest =>
        match (match x with JNull => Normal EmptyString | _ => f x end) with
        | Throw e => Throw e
        | Normal sx =>
            match rest with
            | [] => Normal sx
            | _ :: _ =>
                match go rest with
                | Throw e => Throw e
                | Normal sr => Normal (sx ++ "," ++ sr)%string
                end
            end
        end
    end.

(** ToString of a value that came out of JSON.  An array joins its
    elements; an object gives [[object Object]], unless an own [toString]
    property (never callable in JSON) shadows the inherited method, when
    no conversion is left. *)
Fixpoint ToString (v : JSValue) : completion string :=
  match v with
  | JNull => Normal "null"
  | JBool true => Normal "true"
  | JBool false => Normal "false"
  | JNum n => Normal (Number_toString n)
  | JStr s => Normal s
  | JArr items => join ToString items
  | JObj props =>
      match lookup "toString" props with
      | Some _ => Throw TypeError
      | None => Normal "[object Object]"
      end
  end.

(** [`${x}`] for a possibly undefined [x]. *)
Definition template (x : option JSValue) : completion string :=
  match x with
  | None => Normal "undefined"
  | Some v => ToString v
  end.

(** *** The store and its monad

    [sendMessage] works on the caller's message object and on [this]; the
    store holds both, with the calls made to the console and the network,
    oldest first. *)
Record Store : Type := {
  this : FeishuChannel;
  message : FeishuMessage;
  events : list Event
}.

Definition M (A : Type) : Type := Store -> completion A * Store.

Definition ret {A : Type} (a : A) : M A := fun st => (Normal a, st).

Definition bind {A B : Type} (c : M A) (k : A -> M B) : M B :=
  fun st =>
    match c st with
    | (Normal a, st') => k a st'
    | (Throw e, st') => (Throw e, st')
    end.

Definition throw {A : Type} (e : exn) : M A := fun st => (Throw e, st).

(** A step that completes with [c] and leaves the store alone: an awaited
    promise, or an expression that may throw. *)
Definition await {A : Type} (c : completion A) : M A := fun st => (c, st).

Definition read : M FeishuMessage := fun st => (Normal (message st), st).

Definition assign (f : FeishuMessage -> FeishuMessage) : M unit :=
  fun st => (Normal tt,
             {| this := this st; message := f (message st); events := events st |}).

Definition emit (e : Event) : M unit :=
  fun st => (Normal tt,
             {| this := this st; message := message st; events := events st ++ [e] |}).

Local Notation "x <- c ;; k" := (bind c (fun x => k))
  (at level 61, c at next level, right associativity).
Local Notation "c ;; k" := (bind c (fun _ => k))
  (at level 61, right associativity).

(** *** sendMessage *)

Definition webhook_empty : string := "飞书机器人 Webhook 不能为空".
Definition post_format : string := "富文本内容格式不正确，请提供有效的JSON格式".
Definition card_format : string := "交互式卡片内容格式不正确，请提供有效的JSON格式".
Definition push_failed : string := "飞书消息推送失败: ".

Definition sendMessage (w : World) (options : SendMessageOptions) : M Response :=
  let webhook := webhook options in
  let secret := secret options in
  match truthy webhook with
  | None => throw (Error webhook_empty)
  | Some webhook =>
      (m <- read ;;
       match msg_type m, post_content m with
       | MsgPost, Some (JStr s) =>
           match JSON_parse s with
           | Some v => assign (set_post_content v)
           | None => throw (Error post_format)
           end
       | _, _ => ret tt
       end) ;;
      (m <- read ;;
       match msg_type m, card (content m) with
       | MsgInteractive, Some (JStr s) =>
           match JSON_parse s with
           | Some v => assign (set_card v)
           | None => throw (Error card_format)
           end
       | _, _ => ret tt
       end) ;;
      match truthy secret with
      | Some secret =>
          let timestamp := toString (Date_now w / 1000) in
          assign (set_timestamp timestamp) ;;
          s <- await (generateFeishuSign secret timestamp) ;;
          assign (set_sign s)
      | None => ret tt
      end ;;
      m <- read ;;
      emit (ConsoleLog "sendFeishuMessage message:" m) ;;
      let request :=
        {| url := webhook;
           method := "POST";
           headers := [("Content-Type", "application/json")];
           body := JSON_stringify (value_of_message m) 0 |} in
      emit (Fetch request) ;;
      response <- await (awaited (fetch w request)) ;;
      if negb (ok response) then
        data <- await (awaited (json response)) ;;
        msg <- await (get_msg data) ;;
        reason <- await (template msg) ;;
        throw (Error (push_failed ++ reason)%string)
      else
        ret response
  end.

(** A call of the method: the store before it holds the receiver and the
    caller's message, and no event yet. *)
Definition call (ch : FeishuChannel) (w : World)
    (msg : FeishuMessage) (options : SendMessageOptions)
  : completion Response * Store :=
  sendMessage w options {| this := ch; message := msg; events := [] |}.

(** *** The stages of sendMessage as functions

    What the blocks of [sendMessage] compute, stage by stage;
    [call_stages] below shows that the method is their composition. *)

(** The two parsing blocks: a post whose content is a string and a card
    that is a string are parsed; everything else is left as it is. *)
Definition normalize (m : FeishuMessage) : completion FeishuMessage :=
  match msg_type m with
  | MsgText => Normal m
  | MsgPost =>
      match post_content m with
      | Some (JStr s) =>
          match JSON_parse s with
          | Some v => Normal (set_post_content v m)
          | None => Throw (Error post_format)
          end
      | _ => Normal m
      end
  | MsgInteractive =>
      match card (content m) with
      | Some (JStr s) =>
          match JSON_parse s with
          | Some v => Normal (set_card v m)
          | None => Throw (Error card_format)
          end
      | _ => Normal m
      end
  end.

(** The signing block, with the secret as HMAC key. *)
Definition signed (w : World) (secret : option string) (m : FeishuMessage)
  : FeishuMessage :=
  match truthy secret with
  | Some k =>
      let timestamp := toString (Date_now w / 1000) in
      set_sign (source_sign k timestamp) (set_timestamp timestamp m)
  | None => m
  end.

Definition request_for (url : string) (m : FeishuMessage) : Request :=
  {| url := url;
     method := "POST";
     headers := [("Content-Type", "application/json")];
     body := JSON_stringify (value_of_message m) 0 |}.

(** The result block, for a [fetch] settled to [p]. *)
Definition result_of (p : settled Response) : completion Response :=
  match p with
  | RejectedWith r => Throw (Rejected r)
  | Fulfilled response =>
      if ok response then Normal response
      else
        match json response with
        | RejectedWith r => Throw (Rejected r)
        | Fulfilled data =>
            match get_msg data with
            | Throw e => Throw e
            | Normal msg =>
                match template msg with
                | Throw e => Throw e
                | Normal reason => Throw (Error (push_failed ++ reason)%string)
                end
            end
        end
  end.

(** A top-level member of a serialised value. *)
Definition member (k : string) (v : JSValue) : option JSValue :=
  match v with
  | JObj props => lookup k props
  | _ => None
  end.

Definition is_hidden (f : FieldSpec) : bool :=
  match component f with
  | Some c => String.eqb c "hidden"
  | None => false
  end.

(** *** The error categories of the specification

    The source has one error class; the categories are told apart by the
    message: the three fixed messages, and the prefix of a failed push. *)
Inductive Category : Type :=
| ConfigurationError
| PayloadFormatError (field : string)
| DeliveryError.

Fixpoint starts_with (p s : string) : bool :=
  match p, s with
  | EmptyString, _ => true
  | String a p', String b s' => Ascii.eqb a b && starts_with p' s'
  | String _ _, EmptyString => false
  end.

Definition category (e : exn) : option Category :=
  match e with
  | Error m =>
      if String.eqb m webhook_empty then Some ConfigurationError
      else if String.eqb m post_format then Some (PayloadFormatError "content.post.zh_cn.content")
      else if String.eqb m card_format then Some (PayloadFormatError "content.card")
      else if starts_with push_failed m then Some DeliveryError
      else None
  | TypeError | Rejected _ => None
  end.

(** *** A channel in use

    Calls of the three methods on one channel object, in sequence; each
    [sendMessage] comes with its own world, message and options. *)
Inductive Call : Type :=
| CallGetLabel
| CallGetTemplates
| CallSendMessage (w : World) (msg : FeishuMessage) (options : SendMessageOptions).

Inductive Reply : Type :=
| ReplyLabel (s : string)
| ReplyTemplates (ts : list MessageTemplate)
| ReplySent (r : completion Response) (msg : FeishuMessage).

Definition step (ch : FeishuChannel) (c : Call) : Reply * FeishuChannel :=
  match c with
  | CallGetLabel => (ReplyLabel (getLabel ch), ch)
  | CallGetTemplates => (ReplyTemplates (getTemplates ch), ch)
  | CallSendMessage w msg options =>
      let (r, st) := call ch w msg options in
      (ReplySent r (message st), this st)
  end.

Fixpoint run (ch : FeishuChannel) (calls : list Call) : list Reply * FeishuChannel :=
  match calls with
  | [] => ([], ch)
  | c :: rest =>
      let (r, ch') := step ch c in
      let (rs, ch'') := run ch' rest in
      (r :: rs, ch'')
  end.

(** The answers to [getTemplates] among the replies. *)
Fixpoint templates_seen (rs : list Reply) : list (list MessageTemplate) :=
  match rs with
  | [] => []
  | ReplyTemplates ts :: rest => ts :: templates_seen rest
  | _ :: rest => templates_seen rest
  end.

End Channel.

(** The number type is read off the arguments, except where it makes a type. *)
Arguments JSValue : clear implicits.
Arguments FieldSpec : clear implicits.
Arguments MessageTemplate : clear implicits.
Arguments ChannelConfig : clear implicits.
Arguments FeishuChannel : clear implicits.
Arguments ZhCn : clear implicits.
Arguments Post : clear implicits.
Arguments Content : clear implicits.
Arguments FeishuMessage : clear implicits.
Arguments Response : clear implicits.
Arguments World : clear implicits.
Arguments Event : clear implicits.
Arguments Store : clear implicits.
Arguments M : clear implicits.
Arguments Call : clear implicits.
Arguments Reply : clear implicits.

(** ** A JSON codec

    An executable instance of the platform, after ECMA-404 and the
    [JSON.parse] and [JSON.stringify] of ECMA-262.  A number is kept as the
    text of its literal and printed back as that text, which is what the
    platform prints for literals in canonical form ([0], [42], [-7],
    [1.5]). *)

Module Json.

Definition number : Type := string.
Definition value : Type := JSValue number.

Definition Number_toString (n : number) : string := n.

Definition is_ws (c : Z) : bool :=
  (c =? 32) || (c =? 9) || (c =? 10) || (c =? 13).

Fixpoint skip_ws (cs : list Z) : list Z :=
  match cs with
  | c :: r => if is_ws c then skip_ws r else cs
  | [] => []
  end.

Definition is_digit (c : Z) : bool := (48 <=? c) && (c <=? 57).

Definition hex_val (c : Z) : option Z :=
  if is_digit c then Some (c - 48)
  else if (97 <=? c) && (c <=? 102) then Some (c - 87)
  else if (65 <=? c) && (c <=? 70) then Some (c - 55)
  else None.

Fixpoint digits (cs : list Z) : list Z * list Z :=
  match cs with
  | c :: r => if is_digit c then let (ds, r') := digits r in (c :: ds, r') else ([], cs)
  | [] => ([], [])
  end.

(** UTF-8 of a code point. *)
Definition utf8 (cp : Z) : list Z :=
  if cp <? 0x80 then [cp]
  else if cp <? 0x800 then
    [Z.lor 0xC0 (Z.shiftr cp 6); Z.lor 0x80 (Z.land cp 0x3F)]
  else if cp <? 0x10000 then
    [Z.lor 0xE0 (Z.shiftr cp 12); Z.lor 0x80 (Z.land (Z.shiftr cp 6) 0x3F);
     Z.lor 0x80 (Z.land cp 0x3F)]
  else
    [Z.lor 0xF0 (Z.shiftr cp 18); Z.lor 0x80 (Z.land (Z.shiftr cp 12) 0x3F);
     Z.lor 0x80 (Z.land (Z.shiftr cp 6) 0x3F); Z.lor 0x80 (Z.land cp 0x3F)].

(** What a string literal holds: bytes of the text, and the code units
    written as [\uXXXX]. *)
Inductive item : Type := Raw (b : Z) | Unit (u : Z).

Definition escape (c : Z) : option Z :=
  if c =? 34 then Some 34 else if c =? 92 then Some 92
  else if c =? 47 then Some 47 else if c =? 98 then Some 8
  else if c =? 102 then Some 12 else if c =? 110 then Some 10
  else if c =? 114 then Some 13 else if c =? 116 then Some 9
  else None.

(** The text after an opening quote, up to the closing one. *)
Fixpoint string_body (cs : list Z) : option (list item * list Z) :=
  match cs with
  | [] => None
  | c :: r =>
      if c =? 34 then Some ([], r)
      else if c <? 32 then None
      else if c =? 92 then
        match r with
        | e :: r1 =>
            if e =? 117 then
              match r1 with
              | a :: b :: c' :: d :: r2 =>
                  match hex_val a, hex_val b, hex_val c', hex_val d, string_body r2 with
                  | Some a, Some b, Some c', Some d, Some (items, rest) =>
                      Some (Unit (((a * 16 + b) * 16 + c') * 16 + d) :: items, rest)
                  | _, _, _, _, _ => None
                  end
              | _ => None
              end
            else
              match escape e, string_body r1 with
              | Some b, Some (items, rest) => Some (Raw b :: items, rest)
              | _, _ => None
              end
        | [] => None
        end
      else
        match string_body r with
        | Some (items, rest) => Some (Raw c :: items, rest)
        | None => None
        end
  end.

Definition is_high (u : Z) : bool := (0xD800 <=? u) && (u <? 0xDC00).
Definition is_low (u : Z) : bool := (0xDC00 <=? u) && (u <? 0xE000).

(** A surrogate pair is one code point. *)
Fixpoint text_of (items : list item) : list Z :=
  match items with
  | [] => []
  | Raw b :: rest => b :: text_of rest
  | Unit h :: rest =>
      match rest with
      | Unit l :: rest' =>
          if is_high h && is_low l
          then utf8 (0x10000 + (h - 0xD800) * 0x400 + (l - 0xDC00)) ++ text_of rest'
          else utf8 h ++ text_of rest
      | _ => utf8 h ++ text_of rest
      end
  end.

Definition string_literal (cs : list Z) : option (string * list Z) :=
  match string_body cs with
  | Some (items, rest) => Some (Bytes.fromCharCode (text_of items), rest)
  | None => None
  end.

(** An optional minus; a zero or digits with no leading zero; an optional
    fraction; an optional exponent. *)
Definition number_literal (cs : list Z) : option (list Z * list Z) :=
  let (sign, r0) := match cs with
                    | c :: r => if c =? 45 then ([45], r) else ([], cs)
                    | [] => ([], [])
                    end in
  let (int, r1) := digits r0 in
  match int with
  | [] => None
  | d :: more =>
      if (d =? 48) && negb (Nat.eqb (List.length more) 0) then None else
      let frac :=
        match r1 with
        | c :: r =>
            if c =? 46 then
              match digits r with
              | ([], _) => None
              | (ds, r') => Some (46 :: ds, r')
              end
            else Some ([], r1)
        | [] => Some ([], [])
        end in
      match frac with
      | None => None
      | Some (fr, r2) =>
          match r2 with
          | c :: r =>
              if (c =? 101) || (c =? 69) then
                let (sg, r3) := match r with
                                | s :: r' => if (s =? 43) || (s =? 45)
                                             then ([s], r') else ([], r)
                                | [] => ([], [])
                                end in
                match digits r3 with
                | ([], _) => None
                | (ds, r4) => Some (sign ++ int ++ fr ++ c :: sg ++ ds, r4)
                end
              else Some (sign ++ int ++ fr, r2)
          | [] => Some (sign ++ int ++ fr, [])
          end
      end
  end.

Fixpoint strip (word : list Z) (cs : list Z) : option (list Z) :=
  match word, cs with
  | [], _ => Some cs
  | w :: word', c :: r => if w =? c then strip word' r else None
  | _ :: _, [] => None
  end.

(** A later member with the same name replaces the value of the earlier one. *)
Fixpoint put (k : string) (v : value) (props : list (string * value))
  : list (string * value) :=
  match props with
  | [] => [(k, v)]
  | (k', v') :: rest =>
      if String.eqb k k' then (k', v) :: rest else (k', v') :: put k v rest
  end.

Fixpoint parse_value (fuel : nat) (cs : list Z) : option (value * list Z) :=
  match fuel with
  | O => None
  | S fuel' =>
      match skip_ws cs with
      | [] => None
      | c :: r =>
          if c =? 123 then
            match skip_ws r with
            | c' :: r' =>
                if c' =? 125 then Some (JObj [], r') else parse_members fuel' r []
            | [] => None
            end
          else if c =? 91 then
            match skip_ws r with
            | c' :: r' =>
                if c' =? 93 then Some (JArr [], r') else parse_elements fuel' r []
            | [] => None
            end
          else if c =? 34 then
            match string_literal r with
            | Some (s, r') => Some (JStr s, r')
            | None => None
            end
          else if c =? 116 then
            option_map (fun r' => (JBool true, r')) (strip (Bytes.encode "rue") r)
          else if c =? 102 then
            option_map (fun r' => (JBool false, r')) (strip (Bytes.encode "alse") r)
          else if c =? 110 then
            option_map (fun r' => (JNull, r')) (strip (Bytes.encode "ull") r)
          else
            match number_literal (c :: r) with
            | Some (lexeme, r') => Some (JNum (Bytes.fromCharCode lexeme), r')
            | None => None
            end
      end
  end
with parse_elements (fuel : nat) (cs : list Z) (acc : list value)
  : option (value * list Z) :=
  match fuel with
  | O => None
  | S fuel' =>
      match parse_value fuel' cs with
      | Some (v, r) =>
          match skip_ws r with
          | c :: r' =>
              if c =? 44 then parse_elements fuel' r' (v :: acc)
              else if c =? 93 then Some (JArr (rev (v :: acc)), r')
              else None
          | [] => None
          end
      | None => None
      end
  end
with parse_members (fuel : nat) (cs : list Z) (acc : list (string * value))
  : option (value * list Z) :=
  match fuel with
  | O => None
  | S fuel' =>
      match skip_ws cs with
      | q :: r =>
          if q =? 34 then
            match string_literal r with
            | Some (k, r1) =>
                match skip_ws r1 with
                | colon :: r2 =>
                    if colon =? 58 then
                      match parse_value fuel' r2 with
                      | Some (v, r3) =>
                          match skip_ws r3 with
                          | c :: r4 =>
                              if c =? 44 then parse_members fuel' r4 (put k v acc)
                              else if c =? 125 then Some (JObj (put k v acc), r4)
                              else None
                          | [] => None
                          end
                      | None => None
                      end
                    else None
                | [] => None
                end
            | None => None
            end
          else None
      | [] => None
      end
  end.

(** Every call reads at least one byte before it calls again, and a level
    of nesting costs two calls: twice the length is fuel enough. *)
Definition JSON_parse (s : string) : option value :=
  let cs := Bytes.encode s in
  match parse_value (2 * List.length cs + 2) cs with
  | Some (v, r) => match skip_ws r with [] => Some v | _ => None end
  | None => None
  end.

(** *** Writing *)

Definition char (c : Z) : string := String (ascii_of_N (Z.to_N c)) EmptyString.

Definition hex_digit (i : Z) : string :=
  match String.get (Z.to_nat i) "0123456789abcdef" with
  | Some c => String c EmptyString
  | None => EmptyString
  end.

(** QuoteJSONString, byte by byte: the quote, the backslash and the
    control characters are escaped. *)
Definition quote_byte (c : Z) : string :=
  if c =? 34 then char 92 ++ char 34
  else if c =? 92 then char 92 ++ char 92
  else if c =? 8 then char 92 ++ "b"
  else if c =? 12 then char 92 ++ "f"
  else if c =? 10 then char 92 ++ "n"
  else if c =? 13 then char 92 ++ "r"
  else if c =? 9 then char 92 ++ "t"
  else if c <? 32 then char 92 ++ "u00" ++ hex_digit (c / 16) ++ hex_digit (c mod 16)
  else char c.

Definition quote (s : string) : string :=
  (char 34 ++ String.concat EmptyString (map quote_byte (Bytes.encode s)) ++ char 34)%string.

Definition wrap (opening closing gap indent : string) (parts : list string) : string :=
  (match parts with
   | [] => opening ++ closing
   | _ =>
       if String.eqb gap EmptyString
       then opening ++ String.concat "," parts ++ closing
       else
         let inner := indent ++ gap in
         opening ++ LF ++ inner
         ++ String.concat ("," ++ LF ++ inner) parts
         ++ LF ++ indent ++ closing
   end)%string.

(** SerializeJSONProperty for a value with no [undefined] in it. *)
Fixpoint serialize (gap indent : string) (v : value) : string :=
  match v with
  | JNull => "null"
  | JBool true => "true"
  | JBool false => "false"
  | JNum n => Number_toString n
  | JStr s => quote s
  | JArr items =>
      wrap "[" "]" gap indent (map (serialize gap (indent ++ gap)%string) items)
  | JObj props =>
      wrap "{" "}" gap indent
        (map (fun kv : string * value =>
                let (k, v') := kv in
                (quote k ++ ":" ++ (if String.eqb gap EmptyString then EmptyString else " ")
                 ++ serialize gap (indent ++ gap) v')%string)
             props)
  end.

(** [JSON.stringify(v, null, space)]: the gap is [space] blanks, ten at most. *)
Definition JSON_stringify (v : value) (space : Z) : string :=
  serialize (string_of_list_ascii (repeat " "%char (Z.to_nat (Z.min space 10))))
            EmptyString v.

(** Reading aid for examples: a text in which every apostrophe stands for
    a double quote. *)
Definition q (s : string) : string :=
  string_of_list_ascii
    (map (fun c => if Ascii.eqb c "'"%char then ascii_of_nat 34 else c)
         (list_ascii_of_string s)).

End Json.


(** Bytes in hexadecimal, to read digests. *)
Definition hex (bs : list Z) : string :=
  String.concat EmptyString
    (map (fun b => Json.hex_digit (b / 16) ++ Json.hex_digit (b mod 16))%string bs).

(** ** Sample objects

    Concrete messages, options and worlds over the codec above. *)

Module Sample.

Definition channel : FeishuChannel Json.number :=
  new_FeishuChannel Json.JSON_stringify.

Definition send :=
  call Json.Number_toString Json.JSON_parse Json.JSON_stringify.

Definition hook : string := "https://open.feishu.cn/open-apis/bot/v2/hook/0000".

Definition unsigned : SendMessageOptions :=
  {| webhook := Some hook; secret := None |}.

Definition with_secret (k : string) : SendMessageOptions :=
  {| webhook := Some hook; secret := Some k |}.

Definition no_webhook : SendMessageOptions :=
  {| webhook := None; secret := Some "abc" |}.

Definition empty_webhook : SendMessageOptions :=
  {| webhook := Some EmptyString; secret := Some "abc" |}.

Definition text_message (t : option string) : FeishuMessage Json.number :=
  {| msg_type := MsgText;
     content := {| text := t; post := None; card := None |};
     timestamp := None;
     sign := None |}.

(** A text message that already carries a timestamp and a signature, as
    one that went through a signed call does. *)
Definition stamped_message : FeishuMessage Json.number :=
  {| msg_type := MsgText;
     content := {| text := Some "hello"; post := None; card := None |};
     timestamp := Some "1600000000";
     sign := Some "c3RhbGU=" |}.

Definition post_message (c : Json.value) : FeishuMessage Json.number :=
  {| msg_type := MsgPost;
     content := {| text := None;
                   post := Some {| zh_cn := {| title := "title"; zh_content := c |} |};
                   card := None |};
     timestamp := None;
     sign := None |}.

Definition card_message (c : Json.value) : FeishuMessage Json.number :=
  {| msg_type := MsgInteractive;
     content := {| text := None; post := None; card := Some c |};
     timestamp := None;
     sign := None |}.

Definition blocks : Json.value :=
  JArr [ JArr [ JObj [ ("tag", JStr "text"); ("text", JStr "hi") ] ] ].

Definition blocks_text : string := Json.q "[[{'tag':'text','text':'hi'}]]".

Definition card_value : Json.value :=
  JObj [ ("elements", JArr []) ].

Definition card_text : string := Json.q "{'elements':[]}".

(** A response with the given status flag and body text: [json()] parses
    the text, and rejects with a SyntaxError when it is not JSON. *)
Definition response (ok' : bool) (text' : string) : Response Json.number :=
  {| ok := ok';
     json := match Json.JSON_parse text' with
             | Some v => Fulfilled v
             | None => RejectedWith "SyntaxError"
             end |}.

(** A world whose clock reads [now] and whose transport answers every
    request with [r]. *)
Definition world (now : Z) (r : Response Json.number) : World Json.number :=
  {| Date_now := now; fetch := fun _ => Fulfilled r |}.

Definition accepted : Response Json.number :=
  response true (Json.q "{'code':0,'msg':'success'}").

Definition invalid_token : Response Json.number :=
  response false (Json.q "{'msg':'invalid token'}").

Definition gateway_page : Response Json.number :=
  response false "<html>502 Bad Gateway</html>".

Definition no_template : MessageTemplate Json.number :=
  {| template_type := EmptyString; name := EmptyString;
     description := EmptyString; fields := [] |}.

(** The bodies handed to [fetch], oldest first. *)
Fixpoint bodies (es : list (Event Json.number)) : list string :=
  match es with
  | [] => []
  | Fetch r :: rest => body r :: bodies rest
  | ConsoleLog _ _ :: rest => bodies rest
  end.

End Sample.

(** ** Observations on a call *)

(** The requests handed to [fetch], oldest first. *)
Fixpoint requests {number : Type} (es : list (Event number)) : list Request :=
  match es with
  | [] => []
  | Fetch r :: rest => r :: requests rest
  | ConsoleLog _ _ :: rest => requests rest
  end.

(** The answers to [getLabel] among the replies. *)
Fixpoint labels_seen {number : Type} (rs : list (Reply number)) : list string :=
  match rs with
  | [] => []
  | ReplyLabel s :: rest => s :: labels_seen rest
  | _ :: rest => labels_seen rest
  end.

(** A decimal numeral read back as an integer. *)
Definition read_decimal (s : string) : option Z :=
  option_map Z.of_int (DecimalString.NilZero.int_of_string s).

(** ** Further sample objects *)

Module Scenario.

(** A world whose transport rejects every request, as [fetch] does when
    the network is down. *)
Definition offline : World Json.number :=
  {| Date_now := 1700000000123; fetch := fun _ => RejectedWith "TypeError" |}.

Definition null_body : Response Json.number := Sample.response false "null".

Definition early : World Json.number := Sample.world 1700000000123 Sample.accepted.

Definition late : World Json.number := Sample.world 1700000999000 Sample.accepted.

Definition hello : FeishuMessage Json.number := Sample.text_message (Some "hello").

Definition hello_request : Request :=
  {| url := Sample.hook;
     method := "POST";
     headers := [("Content-Type", "application/json")];
     body := Json.q "{'msg_type':'text','content':{'text':'hello'}}" |}.

(** The JSON text of a string that is itself the JSON text of blocks. *)
Definition quoted_blocks : string := Json.q "'[[]]'".

(** A refusal whose msg is an object with a member named toString: the
    member is no function, so the object has no conversion to a string. *)
Definition unprintable : Response Json.number :=
  Sample.response false (Json.q "{'msg':{'toString':1}}").

End Scenario.

(** * Properties *)

(** ** The primitives on standard vectors *)

(** FIPS 180-4, sections 4.2.2 and 5.3.3: the ends of the two tables. *)
Example sha256_constants :
  (hd 0 SHA256.K, last SHA256.K 0, List.length SHA256.K)
  = (0x428a2f98, 0xc67178f2, 64%nat)
  /\ (hd 0 SHA256.H0, last SHA256.H0 0, List.length SHA256.H0)
     = (0x6a09e667, 0x5be0cd19, 8%nat).
Proof. split; vm_compute; reflexivity. Qed.

(** FIPS 180-4, the one-block message abc. *)
Example sha256_abc :
  hex (SHA256.digest (Bytes.encode "abc"))
  = "ba7816bf8f01cfea414140de5dae2223b00361a396177a9cb410ff61f20015ad".
Proof. vm_compute. reflexivity. Qed.

(** RFC 4231, test case 2. *)
Example hmac_sha256_jefe :
  hex (HMAC.sha256 (Bytes.encode "Jefe") (Bytes.encode "what do ya want for nothing?"))
  = "5bdcc146bf60754e6a042426089575c75a003f089d2739839dec58b964ec3843".
Proof. vm_compute. reflexivity. Qed.

(** RFC 4231, test case 6: a key longer than a block is hashed first. *)
Example hmac_sha256_long_key :
  hex (HMAC.sha256 (repeat 0xaa 131)
         (Bytes.encode "Test Using Larger Than Block-Size Key - Hash Key First"))
  = "60e431591ee0b67f0d8a26aacbf5b77f8e0bc6213728c5140546040f0ee37f54".
Proof. vm_compute. reflexivity. Qed.

(** RFC 4648, section 10. *)
Example base64_vectors :
  map Base64.btoa ["f"; "fo"; "foo"; "foob"; "fooba"; "foobar"]
  = ["Zg=="; "Zm8="; "Zm9v"; "Zm9vYg=="; "Zm9vYmE="; "Zm9vYmFy"].
Proof. vm_compute. reflexivity. Qed.

Example parse_object :
  Json.JSON_parse (Json.q " { 'msg' : 'invalid token', 'code' : 19021 } ")
  = Some (JObj [("msg", JStr "invalid token"); ("code", JNum "19021")]).
Proof. vm_compute. reflexivity. Qed.

Example parse_blocks : Json.JSON_parse Sample.blocks_text = Some Sample.blocks.
Proof. vm_compute. reflexivity. Qed.

Example parse_card : Json.JSON_parse Sample.card_text = Some Sample.card_value.
Proof. vm_compute. reflexivity. Qed.

Example parse_refused :
  map Json.JSON_parse ["not json"; "[1,]"; "01"; "{elements}"; EmptyString; "nul"]
  = [None; None; None; None; None; None].
Proof. vm_compute. reflexivity. Qed.

Example stringify_message :
  Json.JSON_stringify (value_of_message (Sample.post_message Sample.blocks)) 0
  = Json.q "{'msg_type':'post','content':{'post':{'zh_cn':{'title':'title','content':[[{'tag':'text','text':'hi'}]]}}}}".
Proof. vm_compute. reflexivity. Qed.

(** ** The signature *)

Lemma be_bytes_range (n : nat) (x : Z) : Forall Bytes.is_byte (SHA256.be_bytes n x).
Proof.
  induction n as [|n IH]; simpl; constructor; auto.
  unfold Bytes.is_byte. apply Z.mod_pos_bound. lia.
Qed.

Lemma digest_range (msg : list Z) : Forall Bytes.is_byte (SHA256.digest msg).
Proof.
  unfold SHA256.digest.
  generalize (fold_left SHA256.compress
                (SHA256.chunks (List.length (SHA256.pad msg)) 64 (SHA256.pad msg))
                SHA256.H0).
  intros ws. induction ws as [|w ws IH]; cbn [flat_map].
  - constructor.
  - apply Forall_app. split; [apply be_bytes_range | exact IH].
Qed.

(** A string of characters below 256 encodes to the bytes it was made of. *)
Lemma encode_fromCharCode (bs : list Z) :
  Forall Bytes.is_byte bs -> Bytes.encode (Bytes.fromCharCode bs) = bs.
Proof.
  unfold Bytes.encode, Bytes.fromCharCode.
  rewrite list_ascii_of_string_of_list_ascii.
  induction 1 as [|b bs Hb _ IH]; simpl; [reflexivity|].
  rewrite IH. f_equal.
  unfold Bytes.is_byte in Hb.
  rewrite N_ascii_embedding by lia.
  apply Z2N.id. lia.
Qed.

Lemma encode_append (a b : string) :
  Bytes.encode (a ++ b)%string = Bytes.encode a ++ Bytes.encode b.
Proof.
  unfold Bytes.encode.
  induction a as [|c a IH]; simpl; [reflexivity|].
  now rewrite IH.
Qed.

Lemma btoa_signature (key data : list Z) :
  Base64.btoa (Bytes.fromCharCode (HMAC.sha256 key data))
  = Base64.encode (HMAC.sha256 key data).
Proof.
  unfold Base64.btoa. rewrite encode_fromCharCode; [reflexivity|].
  unfold HMAC.sha256. apply digest_range.
Qed.

Lemma generateFeishuSign_source (secret timestamp : string) :
  secret <> EmptyString ->
  generateFeishuSign secret timestamp = Normal (source_sign secret timestamp).
Proof.
  intros Hne. unfold generateFeishuSign, source_sign.
  destruct secret as [|c r]; [congruence|].
  cbn [Bytes.encode list_ascii_of_string map Subtle.importKey awaited].
  unfold Subtle.sign. cbn [Subtle.raw].
  rewrite btoa_signature.
  rewrite !encode_append. reflexivity.
Qed.

(** The signing never fails on a secret that passed [if (secret)]. *)
Lemma generateFeishuSign_truthy (x : option string) (secret timestamp : string) :
  truthy x = Some secret ->
  generateFeishuSign secret timestamp = Normal (source_sign secret timestamp).
Proof.
  intros H. apply generateFeishuSign_source.
  destruct x as [[|c r]|]; simpl in H; congruence.
Qed.

(** C1, as amended: for every non-empty secret and every timestamp the
    signing function returns the base64 encoding of the HMAC-SHA256 in which
    the secret is the key and timestamp, line feed, secret is the message;
    for the secret abc and the timestamp 1700000000 that is the fixed value
    below. *)
Theorem generateFeishuSign_hmac (secret timestamp : string) :
  secret <> EmptyString ->
  generateFeishuSign secret timestamp
  = Normal (Base64.encode
              (HMAC.sha256 (Bytes.encode secret)
                           (Bytes.encode timestamp ++ 10 :: Bytes.encode secret)))
  /\ generateFeishuSign "abc" "1700000000"
     = Normal "vEg8s1sKF2lvRc7VeEdo8hrgzIxZkX+ZgxZ3JifYMjE=".
Proof.
  intros Hne. split.
  - now apply generateFeishuSign_source.
  - vm_compute. reflexivity.
Qed.

Lemma generateFeishuSign_hmac_witness :
  "abc" <> EmptyString
  /\ generateFeishuSign "abc" "1700000000"
     = Normal (Base64.encode
                 (HMAC.sha256 (Bytes.encode "abc")
                              (Bytes.encode "1700000000" ++ 10 :: Bytes.encode "abc"))).
Proof.
  assert (Hne : "abc" <> EmptyString) by discriminate.
  exact (conj Hne (proj1 (generateFeishuSign_hmac "abc" "1700000000" Hne))).
Defined.

(** C1, as stated, fails: with the secret as message and timestamp, line
    feed, secret as key the value for abc and 1700000000 is another one; and
    the empty secret is refused at the key import. *)
Lemma generateFeishuSign_roles_counterexample :
  spec_sign "abc" "1700000000" = "Cu+O4iebd6w0WoyMMLuSf1xjrsPi8vqSOepJJaT5fvo="
  /\ generateFeishuSign "abc" "1700000000"
     = Normal "vEg8s1sKF2lvRc7VeEdo8hrgzIxZkX+ZgxZ3JifYMjE="
  /\ generateFeishuSign "abc" "1700000000" <> Normal (spec_sign "abc" "1700000000")
  /\ generateFeishuSign EmptyString "1700000000" = Throw (Rejected "DataError").
Proof.
  assert (Hspec : spec_sign "abc" "1700000000"
                  = "Cu+O4iebd6w0WoyMMLuSf1xjrsPi8vqSOepJJaT5fvo=")
    by (vm_compute; reflexivity).
  assert (Hsrc : generateFeishuSign "abc" "1700000000"
                 = Normal "vEg8s1sKF2lvRc7VeEdo8hrgzIxZkX+ZgxZ3JifYMjE=")
    by (vm_compute; reflexivity).
  split; [exact Hspec|]. split; [exact Hsrc|]. split.
  - rewrite Hsrc, Hspec. discriminate.
  - vm_compute. reflexivity.
Qed.

(** ** sendMessage, stage by stage *)

Arguments generateFeishuSign : simpl never.
Arguments source_sign : simpl never.
Arguments toString : simpl never.

Lemma truthy_some (x : option string) (s : string) :
  x = Some s -> s <> EmptyString -> truthy x = Some s.
Proof.
  intros -> Hne. destruct s; [congruence | reflexivity].
Qed.

Lemma truthy_none (x : option string) :
  x = None \/ x = Some EmptyString -> truthy x = None.
Proof.
  intros [-> | ->]; reflexivity.
Qed.

Lemma truthy_inv (x : option string) (s : string) :
  truthy x = Some s -> x = Some s /\ s <> EmptyString.
Proof.
  destruct x as [[|c r]|]; simpl; intros H; inversion H; subst.
  split; [reflexivity | discriminate].
Qed.

(** The part of [sendMessage] after the parsing blocks: signing, logging,
    transport and result. *)
Ltac stages_tail w options :=
  cbn [msg_type content message this events set_post_content set_card];
  unfold signed;
  let Hs := fresh "Hs" in
  destruct (truthy (secret options)) eqn:Hs;
  [ rewrite (generateFeishuSign_truthy _ _ _ Hs) | ];
  cbn [message this events app];
  unfold result_of, request_for;
  match goal with
  | |- context [fetch w ?r] => destruct (fetch w r) as [? | ?]
  end;
  cbn [awaited]; try reflexivity;
  match goal with
  | |- context [ok ?resp] => destruct (ok resp)
  end;
  cbn [negb]; try reflexivity;
  match goal with
  | |- context [json ?resp] => destruct (json resp) as [? | ?]
  end;
  cbn [awaited]; try reflexivity;
  match goal with
  | |- context [get_msg ?d] => destruct (get_msg d) as [? | ?]
  end;
  try reflexivity;
  match goal with
  | |- context [template ?f ?x] => destruct (template f x)
  end;
  reflexivity.

Section Properties.

Context {number : Type}.
Variable Number_toString : number -> string.
Variable JSON_parse : string -> option (JSValue number).
Variable JSON_stringify : JSValue number -> Z -> string.

Local Abbreviation send := (call Number_toString JSON_parse JSON_stringify).
Local Abbreviation fresh := (new_FeishuChannel JSON_stringify).

Lemma call_stages (ch : FeishuChannel number) (w : World number)
    (msg : FeishuMessage number) (options : SendMessageOptions) :
  send ch w msg options =
  match truthy (webhook options) with
  | None =>
      (Throw (Error webhook_empty), {| this := ch; message := msg; events := [] |})
  | Some url =>
      match normalize JSON_parse msg with
      | Throw e => (Throw e, {| this := ch; message := msg; events := [] |})
      | Normal m1 =>
          let m2 := signed w (secret options) m1 in
          let request := request_for JSON_stringify url m2 in
          (result_of Number_toString (fetch w request),
           {| this := ch; message := m2;
              events := [ConsoleLog "sendFeishuMessage message:" m2; Fetch request] |})
      end
  end.
Proof.
  unfold call, sendMessage.
  destruct (truthy (webhook options)) as [url|]; [|reflexivity].
  unfold bind, read, assign, emit, await, ret, throw. cbn [message this events].
  destruct msg as [mt c ts sg].
  destruct mt; cbn [msg_type normalize].
  - stages_tail w options.
  - destruct (post_content _) as [[|b|n|s|items|props]|]; try stages_tail w options.
    destruct (JSON_parse s); [stages_tail w options | reflexivity].
  - cbn [msg_type content message this events].
    destruct (card c) as [[|b|n|s|items|props]|]; try stages_tail w options.
    destruct (JSON_parse s); [stages_tail w options | reflexivity].
Qed.

(** *** Members of the request body *)

Lemma member_timestamp (m : FeishuMessage number) :
  member "timestamp" (value_of_message m) = option_map JStr (timestamp m).
Proof.
  unfold value_of_message, member.
  destruct (timestamp m), (sign m); reflexivity.
Qed.

Lemma member_sign (m : FeishuMessage number) :
  member "sign" (value_of_message m) = option_map JStr (sign m).
Proof.
  unfold value_of_message, member.
  destruct (timestamp m), (sign m); reflexivity.
Qed.

Lemma normalize_cases (m m1 : FeishuMessage number) :
  normalize JSON_parse m = Normal m1 ->
  m1 = m \/ exists v, m1 = set_post_content v m \/ m1 = set_card v m.
Proof.
  unfold normalize. intros H.
  destruct (msg_type m).
  - inversion H. now left.
  - destruct (post_content m) as [[|b|n|s|items|props]|];
      try (inversion H; now left).
    destruct (JSON_parse s) as [v|]; inversion H. right. exists v. now left.
  - destruct (card (content m)) as [[|b|n|s|items|props]|];
      try (inversion H; now left).
    destruct (JSON_parse s) as [v|]; inversion H. right. exists v. now right.
Qed.

Lemma normalize_keeps (m m1 : FeishuMessage number) :
  normalize JSON_parse m = Normal m1 ->
  msg_type m1 = msg_type m /\ timestamp m1 = timestamp m /\ sign m1 = sign m.
Proof.
  intros H. destruct (normalize_cases _ _ H) as [-> | [v [-> | ->]]];
    repeat split; reflexivity.
Qed.

(** *** Missing endpoint *)

(** C2: with an empty or absent webhook, sendMessage fails with the
    configuration error, whatever the message, the message is untouched
    and nothing reaches the console or the transport. *)
Theorem sendMessage_missing_webhook (ch : FeishuChannel number) (w : World number)
    (msg : FeishuMessage number) (options : SendMessageOptions) :
  webhook options = None \/ webhook options = Some EmptyString ->
  send ch w msg options
  = (Throw (Error webhook_empty), {| this := ch; message := msg; events := [] |})
  /\ category (Error webhook_empty) = Some ConfigurationError.
Proof.
  intros H. split; [|reflexivity].
  rewrite call_stages, (truthy_none _ H). reflexivity.
Qed.

(** *** Malformed JSON *)

(** C3: with a non-empty webhook, a post whose content is a string that
    does not parse fails with the rich-text format error, a card that is
    a string that does not parse fails with the card format error, both
    before anything reaches the transport, and the two errors differ. *)
Theorem sendMessage_invalid_json (ch : FeishuChannel number) (w : World number)
    (msg : FeishuMessage number) (options : SendMessageOptions) (url s : string) :
  webhook options = Some url -> url <> EmptyString ->
  JSON_parse s = None ->
  (msg_type msg = MsgPost -> post_content msg = Some (JStr s) ->
     send ch w msg options
     = (Throw (Error post_format), {| this := ch; message := msg; events := [] |}))
  /\ (msg_type msg = MsgInteractive -> card (content msg) = Some (JStr s) ->
     send ch w msg options
     = (Throw (Error card_format), {| this := ch; message := msg; events := [] |}))
  /\ category (Error post_format) = Some (PayloadFormatError "content.post.zh_cn.content")
  /\ category (Error card_format) = Some (PayloadFormatError "content.card")
  /\ Error post_format <> Error card_format.
Proof.
  intros Hw Hne Hp.
  repeat split; try reflexivity; try discriminate.
  - intros Ht Hc. rewrite call_stages, (truthy_some _ _ Hw Hne).
    unfold normalize. rewrite Ht, Hc, Hp. reflexivity.
  - intros Ht Hc. rewrite call_stages, (truthy_some _ _ Hw Hne).
    unfold normalize. rewrite Ht, Hc, Hp. reflexivity.
Qed.

(** *** The request body *)

(** C4, as amended: for a non-empty webhook and a message whose parsing
    blocks succeed, one request is sent, and its body is the serialised
    message.  With a secret that is absent or empty the body has the
    timestamp and sign members the caller's message had, none when it had
    none.  With a non-empty secret the timestamp member is the clock in
    seconds as a string, and the sign member is generateFeishuSign of that
    secret and that timestamp. *)
Theorem sendMessage_body (ch : FeishuChannel number) (w : World number)
    (msg : FeishuMessage number) (options : SendMessageOptions)
    (url : string) (m1 : FeishuMessage number) :
  webhook options = Some url -> url <> EmptyString ->
  normalize JSON_parse msg = Normal m1 ->
  exists m2 : FeishuMessage number,
    events (snd (send ch w msg options))
    = [ ConsoleLog "sendFeishuMessage message:" m2;
        Fetch {| url := url;
                 method := "POST";
                 headers := [("Content-Type", "application/json")];
                 body := JSON_stringify (value_of_message m2) 0 |} ]
    /\ msg_type m2 = msg_type m1
    /\ content m2 = content m1
    /\ (secret options = None \/ secret options = Some EmptyString ->
          member "timestamp" (value_of_message m2) = option_map JStr (timestamp msg)
          /\ member "sign" (value_of_message m2) = option_map JStr (sign msg))
    /\ (forall k : string, secret options = Some k -> k <> EmptyString ->
          member "timestamp" (value_of_message m2)
          = Some (JStr (toString (Date_now w / 1000)))
          /\ exists sg : string,
               generateFeishuSign k (toString (Date_now w / 1000)) = Normal sg
               /\ member "sign" (value_of_message m2) = Some (JStr sg)).
Proof.
  intros Hw Hne Hn.
  exists (signed w (secret options) m1).
  rewrite call_stages, (truthy_some _ _ Hw Hne), Hn.
  destruct (normalize_keeps _ _ Hn) as (_ & Hts & Hsg).
  cbn [snd events]. split; [reflexivity|].
  rewrite member_timestamp, member_sign. unfold signed.
  repeat split.
  - destruct (truthy (secret options)); reflexivity.
  - destruct (truthy (secret options)); reflexivity.
  - rewrite (truthy_none _ H). now rewrite Hts.
  - rewrite (truthy_none _ H). now rewrite Hsg.
  - rewrite (truthy_some _ _ H H0). reflexivity.
  - rewrite (truthy_some _ _ H H0).
    exists (source_sign k (toString (Date_now w / 1000))). split.
    + now apply generateFeishuSign_source.
    + reflexivity.
Qed.

(** *** A refused delivery *)

Lemma delivery_category (reason : string) :
  category (Error (push_failed ++ reason)%string) = Some DeliveryError.
Proof. reflexivity. Qed.

(** *** What the result block can throw *)

(** Induction over a value and the values inside it. *)
Lemma JSValue_nested_ind (P : JSValue number -> Prop) :
  P JNull ->
  (forall b, P (JBool b)) ->
  (forall n, P (JNum n)) ->
  (forall s, P (JStr s)) ->
  (forall items, Forall P items -> P (JArr items)) ->
  (forall props, Forall (fun kv => P (snd kv)) props -> P (JObj props)) ->
  forall v, P v.
Proof.
  intros Hnull Hbool Hnum Hstr Harr Hobj.
  fix IH 1. intros [|b|n|s|items|props].
  - exact Hnull.
  - apply Hbool.
  - apply Hnum.
  - apply Hstr.
  - apply Harr. induction items as [|x rest IHrest]; constructor; [apply IH | exact IHrest].
  - apply Hobj. induction props as [|[k x] rest IHrest]; constructor;
      [apply IH | exact IHrest].
Qed.

Lemma join_throws (f : JSValue number -> completion string) (items : list (JSValue number))
    (e : exn) :
  Forall (fun x => f x = Throw e -> e = TypeError) items ->
  join f items = Throw e -> e = TypeError.
Proof.
  induction 1 as [|x rest Hx _ IH]; cbn [join]; [discriminate|].
  destruct (match x with JNull => Normal EmptyString | _ => f x end) as [sx|ex] eqn:Hfx.
  - destruct rest as [|y rest]; [discriminate|].
    fold (join f) in *. destruct (join f (y :: rest)) as [sr|er]; [discriminate|].
    intros H. inversion H; subst. now apply IH.
  - intros H. inversion H; subst.
    destruct x; try discriminate; now apply Hx.
Qed.

Lemma ToString_throws (v : JSValue number) (e : exn) :
  ToString Number_toString v = Throw e -> e = TypeError.
Proof.
  induction v as [|b|n|s|items IH|props _] using JSValue_nested_ind;
    cbn [ToString]; try discriminate.
  - destruct b; discriminate.
  - apply join_throws. exact IH.
  - destruct (lookup "toString" props); [|discriminate].
    intros H. now inversion H.
Qed.

Lemma result_of_throws (p : settled (Response number)) (e : exn) :
  result_of Number_toString p = Throw e ->
  (exists r, e = Rejected r) \/ e = TypeError
  \/ exists reason, e = Error (push_failed ++ reason)%string.
Proof.
  unfold result_of.
  destruct p as [response|r];
    [|intros H; inversion H; left; eexists; reflexivity].
  destruct (ok response); [discriminate|].
  destruct (json response) as [data|r];
    [|intros H; inversion H; left; eexists; reflexivity].
  destruct (get_msg data) as [x|e'] eqn:Hg.
  - destruct (template Number_toString x) as [reason|e'] eqn:Ht.
    + intros H; inversion H. right; right. eexists; reflexivity.
    + intros H; inversion H; subst. right; left.
      destruct x as [v|]; [|discriminate]. now apply (ToString_throws v).
  - intros H; inversion H; subst. right; left.
    destruct data; try discriminate. now inversion Hg.
Qed.

(** Once the parsing blocks are passed, no failure is a format error. *)
Lemma call_category (ch : FeishuChannel number) (w : World number)
    (msg m1 : FeishuMessage number) (options : SendMessageOptions) (e : exn) :
  normalize JSON_parse msg = Normal m1 ->
  fst (send ch w msg options) = Throw e ->
  forall field : string, category e <> Some (PayloadFormatError field).
Proof.
  intros Hn. rewrite call_stages, Hn.
  destruct (truthy (webhook options)) as [url|]; cbn [fst].
  - intros H field. apply result_of_throws in H.
    destruct H as [[r ->] | [-> | [reason ->]]]; discriminate.
  - intros H field. inversion H; subst. discriminate.
Qed.

(** C5, as amended: when the transport answers with a status that is not
    a success and the body parses to a value other than null whose msg
    converts to a string, sendMessage fails with the delivery error made of
    the push prefix and that conversion: the text itself for a msg that is
    a string, the word undefined for a value that has no msg.  When the
    body parses to null, or the msg has no conversion to a string, the call
    fails with a TypeError.  When the body does not parse, the rejection of
    response.json() is thrown on as it is.  In the last three cases no
    delivery error is made. *)
Theorem sendMessage_not_ok (ch : FeishuChannel number) (w : World number)
    (msg : FeishuMessage number) (options : SendMessageOptions)
    (url : string) (m1 : FeishuMessage number) (response : Response number) :
  webhook options = Some url -> url <> EmptyString ->
  normalize JSON_parse msg = Normal m1 ->
  fetch w (request_for JSON_stringify url (signed w (secret options) m1))
  = Fulfilled response ->
  ok response = false ->
  (forall (data : JSValue number) (reason : string),
      json response = Fulfilled data ->
      get_msg data = Normal (Some (JStr reason)) ->
      fst (send ch w msg options) = Throw (Error (push_failed ++ reason)%string)
      /\ category (Error (push_failed ++ reason)%string) = Some DeliveryError)
  /\ (forall data : JSValue number,
        json response = Fulfilled data ->
        get_msg data = Normal None ->
        fst (send ch w msg options) = Throw (Error (push_failed ++ "undefined")%string))
  /\ (forall r : string,
        json response = RejectedWith r ->
        fst (send ch w msg options) = Throw (Rejected r)
        /\ category (Rejected r) = None)
  /\ (forall data : JSValue number,
        json response = Fulfilled data ->
        data <> JNull ->
        exists x : option (JSValue number),
          get_msg data = Normal x
          /\ (forall reason : string,
                template Number_toString x = Normal reason ->
                fst (send ch w msg options)
                = Throw (Error (push_failed ++ reason)%string)
                /\ category (Error (push_failed ++ reason)%string)
                   = Some DeliveryError)
          /\ (forall e : exn,
                template Number_toString x = Throw e ->
                fst (send ch w msg options) = Throw TypeError
                /\ category TypeError = None))
  /\ (json response = Fulfilled JNull ->
        fst (send ch w msg options) = Throw TypeError
        /\ category TypeError = None).
Proof.
  intros Hw Hne Hn Hf Hok.
  rewrite call_stages, (truthy_some _ _ Hw Hne), Hn.
  cbn [fst]. unfold result_of. rewrite Hf, Hok.
  split; [|split; [|split; [|split]]].
  - intros data reason Hj Hm. rewrite Hj, Hm. split; reflexivity.
  - intros data Hj Hm. rewrite Hj, Hm. reflexivity.
  - intros r Hj. rewrite Hj. split; reflexivity.
  - intros data Hj Hnull. rewrite Hj.
    destruct (get_msg data) as [x|e] eqn:Hm.
    + exists x. split; [reflexivity|]. split.
      * intros reason Ht. rewrite Ht. split; reflexivity.
      * intros e Ht. rewrite Ht.
        destruct x as [v|]; [|discriminate Ht]. cbn [template] in Ht.
        rewrite (ToString_throws _ _ Ht). split; reflexivity.
    + destruct data; try discriminate Hm. now elim Hnull.
  - intros Hj. rewrite Hj. split; reflexivity.
Qed.

(** *** What is left in the caller's message *)

(** C9, as amended: when the call fails with the delivery error, the
    caller's message is left as it was sent: a post content or a card that
    came as a string holds its parsed value; with a non-empty secret the
    timestamp and the signature are set; with a secret that is absent or
    empty the timestamp and the signature are as the caller had them. *)
Theorem sendMessage_mutation_persists (ch : FeishuChannel number) (w : World number)
    (msg : FeishuMessage number) (options : SendMessageOptions)
    (url : string) (m1 : FeishuMessage number) (response : Response number)
    (data : JSValue number) (x : option (JSValue number)) (reason : string) :
  webhook options = Some url -> url <> EmptyString ->
  normalize JSON_parse msg = Normal m1 ->
  fetch w (request_for JSON_stringify url (signed w (secret options) m1))
  = Fulfilled response ->
  ok response = false ->
  json response = Fulfilled data ->
  get_msg data = Normal x ->
  template Number_toString x = Normal reason ->
  fst (send ch w msg options) = Throw (Error (push_failed ++ reason)%string)
  /\ message (snd (send ch w msg options)) = signed w (secret options) m1
  /\ (forall (s : string) (v : JSValue number),
        msg_type msg = MsgPost -> post_content msg = Some (JStr s) ->
        JSON_parse s = Some v ->
        post_content (message (snd (send ch w msg options))) = Some v)
  /\ (forall (s : string) (v : JSValue number),
        msg_type msg = MsgInteractive -> card (content msg) = Some (JStr s) ->
        JSON_parse s = Some v ->
        card (content (message (snd (send ch w msg options)))) = Some v)
  /\ (forall k : string,
        secret options = Some k -> k <> EmptyString ->
        timestamp (message (snd (send ch w msg options)))
        = Some (toString (Date_now w / 1000))
        /\ exists sg : string,
             generateFeishuSign k (toString (Date_now w / 1000)) = Normal sg
             /\ sign (message (snd (send ch w msg options))) = Some sg)
  /\ (secret options = None \/ secret options = Some EmptyString ->
        timestamp (message (snd (send ch w msg options))) = timestamp msg
        /\ sign (message (snd (send ch w msg options))) = sign msg).
Proof.
  intros Hw Hne Hn Hf Hok Hj Hm Ht.
  rewrite call_stages, (truthy_some _ _ Hw Hne), Hn.
  cbn [fst snd message]. unfold result_of. rewrite Hf, Hok, Hj, Hm, Ht.
  split; [reflexivity|]. split; [reflexivity|].
  destruct (normalize_keeps _ _ Hn) as (_ & Hts & Hsg).
  assert (Hkeep : forall m : FeishuMessage number,
             content (signed w (secret options) m) = content m).
  { intros m. unfold signed. destruct (truthy (secret options)); reflexivity. }
  repeat split.
  - intros s v Hty Hp Hv. unfold post_content. rewrite Hkeep.
    unfold normalize in Hn. rewrite Hty, Hp, Hv in Hn. inversion Hn; subst.
    unfold post_content in Hp. cbn [content set_post_content post].
    destruct (post (content msg)); [reflexivity | discriminate].
  - intros s v Hty Hc Hv. rewrite Hkeep.
    unfold normalize in Hn. rewrite Hty, Hc, Hv in Hn. inversion Hn; subst.
    reflexivity.
  - unfold signed. rewrite (truthy_some _ _ H H0). reflexivity.
  - exists (source_sign k (toString (Date_now w / 1000))). split.
    + now apply generateFeishuSign_source.
    + unfold signed. rewrite (truthy_some _ _ H H0). reflexivity.
  - unfold signed. rewrite (truthy_none _ H). exact Hts.
  - unfold signed. rewrite (truthy_none _ H). exact Hsg.
Qed.

(** *** The static configuration *)

Lemma call_this (ch : FeishuChannel number) (w : World number)
    (msg : FeishuMessage number) (options : SendMessageOptions) :
  this (snd (send ch w msg options)) = ch.
Proof.
  rewrite call_stages.
  destruct (truthy (webhook options)); [|reflexivity].
  destruct (normalize JSON_parse msg); reflexivity.
Qed.

Lemma run_keeps (calls : list (Call number)) (ch : FeishuChannel number) :
  snd (run Number_toString JSON_parse JSON_stringify ch calls) = ch
  /\ Forall (fun ts => ts = getTemplates ch)
       (templates_seen (fst (run Number_toString JSON_parse JSON_stringify ch calls))).
Proof.
  revert ch. induction calls as [|c rest IH]; intros ch.
  - split; [reflexivity | constructor].
  - cbn [run].
    assert (Hs : snd (step Number_toString JSON_parse JSON_stringify ch c) = ch).
    { destruct c as [| |w msg options]; cbn [step snd]; try reflexivity.
      pose proof (call_this ch w msg options) as Hc.
      destruct (send ch w msg options) as [r st]. exact Hc. }
    destruct (step Number_toString JSON_parse JSON_stringify ch c) as [r ch'] eqn:Hstep.
    cbn [snd] in Hs. subst ch'.
    specialize (IH ch). destruct (run _ _ _ ch rest) as [rs ch''].
    cbn [fst snd] in *. destruct IH as [IH1 IH2]. split; [exact IH1|].
    destruct c as [| |w msg options]; cbn [step] in Hstep.
    + inversion Hstep; subst. exact IH2.
    + inversion Hstep; subst. cbn [templates_seen]. constructor; [reflexivity | exact IH2].
    + destruct (send ch w msg options) as [r' st]. inversion Hstep; subst. exact IH2.
Qed.

(** C7: after any sequence of calls of getLabel, getTemplates and
    sendMessage on a channel, the channel object is as it was built, every
    getTemplates returned the templates of the initialiser, and these are
    three. *)
Theorem getTemplates_fixed (calls : list (Call number)) :
  snd (run Number_toString JSON_parse JSON_stringify fresh calls) = fresh
  /\ Forall (fun ts => ts = templates (config fresh))
       (templates_seen (fst (run Number_toString JSON_parse JSON_stringify fresh calls)))
  /\ List.length (templates (config fresh)) = 3%nat.
Proof.
  destruct (run_keeps calls fresh) as [H1 H2].
  split; [exact H1|]. split; [exact H2 | reflexivity].
Qed.

(** C8: every template of the configuration has exactly one field whose
    component is hidden; its key is msg_type and its default value is the
    type of the template. *)
Theorem hidden_field_unique (t : MessageTemplate number) :
  In t (getTemplates fresh) ->
  exists f : FieldSpec number,
    filter is_hidden (fields t) = [f]
    /\ key f = "msg_type"
    /\ defaultValue f = Some (JStr (template_type t)).
Proof.
  intros H. cbn [getTemplates new_FeishuChannel config templates In] in H.
  destruct H as [<- | [<- | [<- | []]]];
    eexists; (split; [reflexivity | split; reflexivity]).
Qed.

End Properties.

(** ** Messages that are not parsed *)

Lemma normalize_structured {number : Type} (parse : string -> option (JSValue number))
    (msg : FeishuMessage number) :
  (msg_type msg = MsgPost /\ typeof (post_content msg) <> "string")
  \/ (msg_type msg = MsgInteractive /\ typeof (card (content msg)) <> "string") ->
  normalize parse msg = Normal msg.
Proof.
  unfold normalize. intros [[-> H] | [-> H]].
  - destruct (post_content msg) as [[|b|n|s|items|props]|]; try reflexivity.
    now elim H.
  - destruct (card (content msg)) as [[|b|n|s|items|props]|]; try reflexivity.
    now elim H.
Qed.

Lemma normalize_text {number : Type} (parse : string -> option (JSValue number))
    (msg : FeishuMessage number) :
  msg_type msg = MsgText -> normalize parse msg = Normal msg.
Proof.
  unfold normalize. now intros ->.
Qed.

(** When the parsing blocks leave the message alone under two parsers, the
    two calls are the same call. *)
Lemma call_parser_free {number : Type} (Number_toString : number -> string)
    (parse parse' : string -> option (JSValue number))
    (JSON_stringify : JSValue number -> Z -> string)
    (ch : FeishuChannel number) (w : World number)
    (msg : FeishuMessage number) (options : SendMessageOptions) :
  normalize parse msg = Normal msg ->
  normalize parse' msg = Normal msg ->
  call Number_toString parse JSON_stringify ch w msg options
  = call Number_toString parse' JSON_stringify ch w msg options.
Proof.
  intros H H'. rewrite !call_stages, H, H'. reflexivity.
Qed.

(** C6: a post whose content is not a string, or a card that is not a
    string, is not parsed: the call is the same under any two parsers, and
    whatever it throws is no format error. *)
Theorem sendMessage_structured_not_parsed {number : Type}
    (Number_toString : number -> string)
    (parse parse' : string -> option (JSValue number))
    (JSON_stringify : JSValue number -> Z -> string)
    (ch : FeishuChannel number) (w : World number)
    (msg : FeishuMessage number) (options : SendMessageOptions) :
  (msg_type msg = MsgPost /\ typeof (post_content msg) <> "string")
  \/ (msg_type msg = MsgInteractive /\ typeof (card (content msg)) <> "string") ->
  call Number_toString parse JSON_stringify ch w msg options
  = call Number_toString parse' JSON_stringify ch w msg options
  /\ (forall (e : exn) (field : string),
        fst (call Number_toString parse JSON_stringify ch w msg options) = Throw e ->
        category e <> Some (PayloadFormatError field)).
Proof.
  intros H. split.
  - apply call_parser_free; now apply normalize_structured.
  - intros e field He.
    exact (call_category Number_toString parse JSON_stringify ch w msg msg options e
             (normalize_structured parse msg H) He field).
Qed.

(** C10: a text message with a non-empty webhook is not parsed, whatever
    its text: the call is the same under any two parsers, whatever it throws
    is no format error, and the message as it came, signed if there is a
    secret, is logged and sent. *)
Theorem sendMessage_text_not_parsed {number : Type}
    (Number_toString : number -> string)
    (parse parse' : string -> option (JSValue number))
    (JSON_stringify : JSValue number -> Z -> string)
    (ch : FeishuChannel number) (w : World number)
    (msg : FeishuMessage number) (options : SendMessageOptions) (url : string) :
  msg_type msg = MsgText ->
  webhook options = Some url -> url <> EmptyString ->
  call Number_toString parse JSON_stringify ch w msg options
  = call Number_toString parse' JSON_stringify ch w msg options
  /\ (forall (e : exn) (field : string),
        fst (call Number_toString parse JSON_stringify ch w msg options) = Throw e ->
        category e <> Some (PayloadFormatError field))
  /\ events (snd (call Number_toString parse JSON_stringify ch w msg options))
     = [ ConsoleLog "sendFeishuMessage message:" (signed w (secret options) msg);
         Fetch (request_for JSON_stringify url (signed w (secret options) msg)) ].
Proof.
  intros Ht Hw Hne. split; [|split].
  - apply call_parser_free; now apply normalize_text.
  - intros e field He.
    exact (call_category Number_toString parse JSON_stringify ch w msg msg options e
             (normalize_text parse msg Ht) He field).
  - rewrite call_stages, (truthy_some _ _ Hw Hne), (normalize_text parse msg Ht).
    reflexivity.
Qed.

(** ** Runs on sample objects *)

(** A signed text message that the service accepts: the response is handed
    back, and the body carries the timestamp of the clock and the signature
    of the vector above. *)
Example send_signed_text :
  fst (Sample.send Sample.channel (Sample.world 1700000000123 Sample.accepted)
                   (Sample.text_message (Some "hello")) (Sample.with_secret "abc"))
  = Normal Sample.accepted
  /\ Sample.bodies
       (events (snd (Sample.send Sample.channel
                                 (Sample.world 1700000000123 Sample.accepted)
                                 (Sample.text_message (Some "hello"))
                                 (Sample.with_secret "abc"))))
     = [ Json.q "{'msg_type':'text','content':{'text':'hello'},'timestamp':'1700000000','sign':'vEg8s1sKF2lvRc7VeEdo8hrgzIxZkX+ZgxZ3JifYMjE='}" ].
Proof. split; vm_compute; reflexivity. Qed.

(** A post whose content came as a string is sent with the parsed blocks. *)
Example send_post_text :
  Sample.bodies
    (events (snd (Sample.send Sample.channel (Sample.world 0 Sample.accepted)
                              (Sample.post_message (JStr Sample.blocks_text))
                              Sample.unsigned)))
  = [ Json.q "{'msg_type':'post','content':{'post':{'zh_cn':{'title':'title','content':[[{'tag':'text','text':'hi'}]]}}}}" ].
Proof. vm_compute. reflexivity. Qed.

Lemma sendMessage_missing_webhook_witness :
  Sample.send Sample.channel (Sample.world 0 Sample.accepted)
              (Sample.post_message (JStr "not json")) Sample.empty_webhook
  = (Throw (Error webhook_empty),
     {| this := Sample.channel;
        message := Sample.post_message (JStr "not json");
        events := [] |}).
Proof.
  apply (sendMessage_missing_webhook Json.Number_toString Json.JSON_parse Json.JSON_stringify).
  right. reflexivity.
Defined.

Lemma sendMessage_invalid_json_witness :
  Sample.send Sample.channel (Sample.world 0 Sample.accepted)
              (Sample.post_message (JStr "not json")) Sample.unsigned
  = (Throw (Error post_format),
     {| this := Sample.channel;
        message := Sample.post_message (JStr "not json");
        events := [] |})
  /\ Sample.send Sample.channel (Sample.world 0 Sample.accepted)
                 (Sample.card_message (JStr "{elements}")) Sample.unsigned
     = (Throw (Error card_format),
        {| this := Sample.channel;
           message := Sample.card_message (JStr "{elements}");
           events := [] |}).
Proof.
  split.
  - apply (sendMessage_invalid_json Json.Number_toString Json.JSON_parse Json.JSON_stringify
             Sample.channel _ (Sample.post_message (JStr "not json")) Sample.unsigned
             Sample.hook "not json");
      solve [reflexivity | discriminate].
  - apply (sendMessage_invalid_json Json.Number_toString Json.JSON_parse Json.JSON_stringify
             Sample.channel _ (Sample.card_message (JStr "{elements}")) Sample.unsigned
             Sample.hook "{elements}");
      solve [reflexivity | discriminate].
Defined.

Lemma sendMessage_body_witness :
  exists m2 : FeishuMessage Json.number,
    events (snd (Sample.send Sample.channel (Sample.world 1700000000123 Sample.accepted)
                             (Sample.text_message (Some "hello"))
                             (Sample.with_secret "abc")))
    = [ ConsoleLog "sendFeishuMessage message:" m2;
        Fetch {| url := Sample.hook;
                 method := "POST";
                 headers := [("Content-Type", "application/json")];
                 body := Json.JSON_stringify (value_of_message m2) 0 |} ]
    /\ member "timestamp" (value_of_message m2) = Some (JStr "1700000000")
    /\ exists sg : string,
         generateFeishuSign "abc" "1700000000" = Normal sg
         /\ member "sign" (value_of_message m2) = Some (JStr sg).
Proof.
  destruct (sendMessage_body Json.Number_toString Json.JSON_parse Json.JSON_stringify
              Sample.channel (Sample.world 1700000000123 Sample.accepted)
              (Sample.text_message (Some "hello")) (Sample.with_secret "abc")
              Sample.hook (Sample.text_message (Some "hello")))
    as (m2 & Hev & _ & _ & _ & Hsigned);
    [reflexivity | discriminate | reflexivity |].
  exists m2. split; [exact Hev|].
  apply (Hsigned "abc"); [reflexivity | discriminate].
Defined.

(** C4, as stated, fails.  Without a secret, a message that carries a
    timestamp and a signature is sent with them in the body; and with a
    secret that is present but empty, the body has neither. *)
Lemma sendMessage_body_counterexample :
  events (snd (Sample.send Sample.channel (Sample.world 1700000000123 Sample.accepted)
                           Sample.stamped_message Sample.unsigned))
  = [ ConsoleLog "sendFeishuMessage message:" Sample.stamped_message;
      Fetch {| url := Sample.hook;
               method := "POST";
               headers := [("Content-Type", "application/json")];
               body := Json.q "{'msg_type':'text','content':{'text':'hello'},'timestamp':'1600000000','sign':'c3RhbGU='}" |} ]
  /\ events (snd (Sample.send Sample.channel (Sample.world 1700000000123 Sample.accepted)
                              (Sample.text_message (Some "hello"))
                              (Sample.with_secret EmptyString)))
     = [ ConsoleLog "sendFeishuMessage message:" (Sample.text_message (Some "hello"));
         Fetch {| url := Sample.hook;
                  method := "POST";
                  headers := [("Content-Type", "application/json")];
                  body := Json.q "{'msg_type':'text','content':{'text':'hello'}}" |} ].
Proof.
  split; vm_compute; reflexivity.
Qed.

Lemma sendMessage_not_ok_witness :
  fst (Sample.send Sample.channel (Sample.world 0 Sample.invalid_token)
                   (Sample.text_message (Some "hello")) Sample.unsigned)
  = Throw (Error (push_failed ++ "invalid token")%string)
  /\ category (Error (push_failed ++ "invalid token")%string) = Some DeliveryError.
Proof.
  apply (proj1 (sendMessage_not_ok Json.Number_toString Json.JSON_parse Json.JSON_stringify
                  Sample.channel (Sample.world 0 Sample.invalid_token)
                  (Sample.text_message (Some "hello")) Sample.unsigned
                  Sample.hook (Sample.text_message (Some "hello")) Sample.invalid_token
                  eq_refl ltac:(discriminate) eq_refl eq_refl eq_refl)
               (JObj [("msg", JStr "invalid token")]) "invalid token");
    reflexivity.
Defined.

(** C5, as stated, fails.  A refusal whose body is not JSON ends in the
    rejection of response.json().  A refusal whose body is the JSON null,
    and one whose msg is an object with a toString member of its own, end in
    a TypeError.  None of the three is a delivery error, and none has a
    message of this channel. *)
Lemma sendMessage_not_ok_counterexample :
  ok Sample.gateway_page = false
  /\ fst (Sample.send Sample.channel (Sample.world 0 Sample.gateway_page)
                      (Sample.text_message (Some "hello")) Sample.unsigned)
     = Throw (Rejected "SyntaxError")
  /\ category (Rejected "SyntaxError") <> Some DeliveryError
  /\ json Scenario.null_body = Fulfilled JNull
  /\ fst (Sample.send Sample.channel (Sample.world 0 Scenario.null_body)
                      (Sample.text_message (Some "hello")) Sample.unsigned)
     = Throw TypeError
  /\ json Scenario.unprintable
     = Fulfilled (JObj [("msg", JObj [("toString", JNum "1")])])
  /\ fst (Sample.send Sample.channel (Sample.world 0 Scenario.unprintable)
                      (Sample.text_message (Some "hello")) Sample.unsigned)
     = Throw TypeError
  /\ category TypeError <> Some DeliveryError.
Proof.
  split; [reflexivity|]. split; [vm_compute; reflexivity|].
  split; [discriminate|]. split; [vm_compute; reflexivity|].
  split; [vm_compute; reflexivity|]. split; [vm_compute; reflexivity|].
  split; [vm_compute; reflexivity | discriminate].
Qed.

Lemma sendMessage_structured_not_parsed_witness :
  Sample.send Sample.channel (Sample.world 0 Sample.accepted)
              (Sample.post_message Sample.blocks) Sample.unsigned
  = call Json.Number_toString (fun _ => None) Json.JSON_stringify
         Sample.channel (Sample.world 0 Sample.accepted)
         (Sample.post_message Sample.blocks) Sample.unsigned
  /\ Sample.send Sample.channel (Sample.world 0 Sample.accepted)
                 (Sample.card_message Sample.card_value) Sample.unsigned
     = call Json.Number_toString (fun _ => None) Json.JSON_stringify
            Sample.channel (Sample.world 0 Sample.accepted)
            (Sample.card_message Sample.card_value) Sample.unsigned.
Proof.
  split.
  - apply (sendMessage_structured_not_parsed Json.Number_toString Json.JSON_parse
             (fun _ => None) Json.JSON_stringify).
    left. split; [reflexivity | discriminate].
  - apply (sendMessage_structured_not_parsed Json.Number_toString Json.JSON_parse
             (fun _ => None) Json.JSON_stringify).
    right. split; [reflexivity | discriminate].
Defined.

Lemma hidden_field_unique_witness :
  exists f : FieldSpec Json.number,
    filter is_hidden (fields (hd Sample.no_template (getTemplates Sample.channel))) = [f]
    /\ key f = "msg_type"
    /\ defaultValue f = Some (JStr "text").
Proof.
  exact (hidden_field_unique Json.JSON_stringify
           (hd Sample.no_template (getTemplates Sample.channel))
           (or_introl eq_refl)).
Defined.

Lemma sendMessage_mutation_persists_witness :
  fst (Sample.send Sample.channel (Sample.world 1700000000123 Sample.invalid_token)
                   (Sample.post_message (JStr Sample.blocks_text))
                   (Sample.with_secret "abc"))
  = Throw (Error (push_failed ++ "invalid token")%string)
  /\ post_content
       (message (snd (Sample.send Sample.channel
                                  (Sample.world 1700000000123 Sample.invalid_token)
                                  (Sample.post_message (JStr Sample.blocks_text))
                                  (Sample.with_secret "abc"))))
     = Some Sample.blocks
  /\ timestamp
       (message (snd (Sample.send Sample.channel
                                  (Sample.world 1700000000123 Sample.invalid_token)
                                  (Sample.post_message (JStr Sample.blocks_text))
                                  (Sample.with_secret "abc"))))
     = Some "1700000000".
Proof.
  destruct (sendMessage_mutation_persists
              Json.Number_toString Json.JSON_parse Json.JSON_stringify
              Sample.channel (Sample.world 1700000000123 Sample.invalid_token)
              (Sample.post_message (JStr Sample.blocks_text)) (Sample.with_secret "abc")
              Sample.hook (Sample.post_message Sample.blocks) Sample.invalid_token
              (JObj [("msg", JStr "invalid token")]) (Some (JStr "invalid token"))
              "invalid token")
    as (Hr & _ & Hpost & _ & Hsec & _);
    try reflexivity; try discriminate.
  split; [exact Hr|]. split.
  - apply (Hpost Sample.blocks_text Sample.blocks); reflexivity.
  - apply (Hsec "abc"); [reflexivity | discriminate].
Defined.

(** C9, as stated, fails: a secret that is given but empty adds no
    timestamp and no signature.  The call below parses the post content,
    fails with the delivery error, and leaves both fields absent. *)
Lemma sendMessage_mutation_persists_counterexample :
  secret (Sample.with_secret EmptyString) = Some EmptyString
  /\ fst (Sample.send Sample.channel (Sample.world 1700000000123 Sample.invalid_token)
                      (Sample.post_message (JStr Sample.blocks_text))
                      (Sample.with_secret EmptyString))
     = Throw (Error (push_failed ++ "invalid token")%string)
  /\ message (snd (Sample.send Sample.channel
                               (Sample.world 1700000000123 Sample.invalid_token)
                               (Sample.post_message (JStr Sample.blocks_text))
                               (Sample.with_secret EmptyString)))
     = {| msg_type := MsgPost;
          content := {| text := None;
                        post := Some {| zh_cn := {| title := "title";
                                                    zh_content := Sample.blocks |} |};
                        card := None |};
          timestamp := None;
          sign := None |}.
Proof.
  split; [reflexivity|]. split; vm_compute; reflexivity.
Qed.

Lemma sendMessage_text_not_parsed_witness :
  Sample.send Sample.channel (Sample.world 0 Sample.accepted)
              (Sample.text_message None) Sample.unsigned
  = call Json.Number_toString (fun _ => None) Json.JSON_stringify
         Sample.channel (Sample.world 0 Sample.accepted)
         (Sample.text_message None) Sample.unsigned.
Proof.
  apply (sendMessage_text_not_parsed Json.Number_toString Json.JSON_parse
           (fun _ => None) Json.JSON_stringify
           Sample.channel (Sample.world 0 Sample.accepted)
           (Sample.text_message None) Sample.unsigned Sample.hook);
    [reflexivity | reflexivity | discriminate].
Defined.

(** * Further properties of the channel *)

(** ** The timestamp and the signed data *)

Lemma toString_reads_back (n : Z) : read_decimal (toString n) = Some n.
Proof.
  unfold read_decimal, toString.
  rewrite DecimalString.NilZero.isi.
  - cbn [option_map]. now rewrite DecimalZ.of_to.
  - destruct n as [|p|p]; cbn; try discriminate.
    intros H. inversion H as [H']. now apply DecimalPos.Unsigned.to_uint_nonnil in H'.
  - destruct n as [|p|p]; cbn; try discriminate.
    intros H. inversion H as [H']. now apply DecimalPos.Unsigned.to_uint_nonnil in H'.
Qed.








(** ** The length of the signature *)

Lemma compress_length (h block : list Z) :
  List.length h = 8%nat -> List.length (SHA256.compress h block) = 8%nat.
Proof.
  intros H. unfold SHA256.compress.
  rewrite length_map, length_combine, H. reflexivity.
Qed.

Lemma digest_length (msg : list Z) : List.length (SHA256.digest msg) = 32%nat.
Proof.
  unfold SHA256.digest.
  assert (H : forall blocks h, List.length h = 8%nat ->
                List.length (fold_left SHA256.compress blocks h) = 8%nat).
  { induction blocks as [|b blocks IH]; intros h Hh; [exact Hh|].
    cbn [fold_left]. apply IH. now apply compress_length. }
  specialize (H (SHA256.chunks (List.length (SHA256.pad msg)) 64 (SHA256.pad msg))
                SHA256.H0 eq_refl).
  revert H.
  generalize (fold_left SHA256.compress
                (SHA256.chunks (List.length (SHA256.pad msg)) 64 (SHA256.pad msg))
                SHA256.H0).
  intros ws H.
  assert (Hf : forall l : list Z,
             List.length (flat_map (SHA256.be_bytes 4) l) = (4 * List.length l)%nat).
  { induction l as [|x l IH]; [reflexivity|].
    cbn [flat_map]. rewrite length_app, IH. cbn [SHA256.be_bytes List.length]. lia. }
  rewrite Hf, H. reflexivity.
Qed.

Lemma encode_32_bytes (bs : list Z) :
  List.length bs = 32%nat ->
  String.length (Base64.encode bs) = 44%nat
  /\ String.get 43 (Base64.encode bs) = Some "="%char.
Proof.
  intros H.
  do 32 (destruct bs as [|? bs]; [discriminate H|]).
  destruct bs; [|discriminate H].
  split; reflexivity.
Qed.

(** X12: for every non-empty secret and every timestamp the signature is
    44 characters long and ends in one padding sign: the base64 text of the
    32 bytes of the digest. *)
Theorem generateFeishuSign_length (secret timestamp : string) :
  secret <> EmptyString ->
  exists sg : string,
    generateFeishuSign secret timestamp = Normal sg
    /\ String.length sg = 44%nat
    /\ String.get 43 sg = Some "="%char.
Proof.
  intros Hne. exists (source_sign secret timestamp).
  split; [now apply generateFeishuSign_source|].
  unfold source_sign. apply encode_32_bytes.
  unfold HMAC.sha256. apply digest_length.
Qed.

Lemma generateFeishuSign_length_witness :
  exists sg : string,
    generateFeishuSign "abc" "1700000000" = Normal sg
    /\ String.length sg = 44%nat
    /\ String.get 43 sg = Some "="%char.
Proof.
  apply (generateFeishuSign_length "abc" "1700000000"). discriminate.
Defined.

(** ** Calls and their outcomes *)

Section Further.

Context {number : Type}.
Variable Number_toString : number -> string.
Variable JSON_parse : string -> option (JSValue number).
Variable JSON_stringify : JSValue number -> Z -> string.

Local Abbreviation send := (call Number_toString JSON_parse JSON_stringify).
Local Abbreviation fresh := (new_FeishuChannel JSON_stringify).

(** X2: whatever the arguments, a call makes no request or exactly one;
    the one request is a POST of JSON to the webhook, its body is the
    serialised message as the call leaves it, and that message was logged
    just before. *)
Theorem sendMessage_one_request (ch : FeishuChannel number) (w : World number)
    (msg : FeishuMessage number) (options : SendMessageOptions) :
  events (snd (send ch w msg options)) = []
  \/ exists u : string,
       webhook options = Some u
       /\ events (snd (send ch w msg options))
          = [ ConsoleLog "sendFeishuMessage message:"
                         (message (snd (send ch w msg options)));
              Fetch {| url := u;
                       method := "POST";
                       headers := [("Content-Type", "application/json")];
                       body := JSON_stringify
                                 (value_of_message
                                    (message (snd (send ch w msg options)))) 0 |} ].
Proof.
  rewrite call_stages.
  destruct (truthy (webhook options)) as [u|] eqn:Hu; [|now left].
  destruct (normalize JSON_parse msg) as [m1|e]; [|now left].
  right. exists u. destruct (truthy_inv _ _ Hu) as [Hw _]. split; [exact Hw|].
  reflexivity.
Qed.


(** X3: when the transport answers with a success, the call returns that
    response as it is, whatever its body: the body is not read. *)
Theorem sendMessage_accepted (ch : FeishuChannel number) (w : World number)
    (msg : FeishuMessage number) (options : SendMessageOptions)
    (request : Request) (response : Response number) :
  requests (events (snd (send ch w msg options))) = [request] ->
  fetch w request = Fulfilled response ->
  ok response = true ->
  fst (send ch w msg options) = Normal response.
Proof.
  rewrite call_stages.
  destruct (truthy (webhook options)) as [u|]; [|discriminate].
  destruct (normalize JSON_parse msg) as [m1|e]; [|discriminate].
  cbn [fst snd events requests]. intros H Hf Hok. inversion H; subst.
  unfold result_of. now rewrite Hf, Hok.
Qed.

(** X4: when the transport rejects the request, the call throws that
    rejection on, and the caller's message stays as it was sent. *)
Theorem sendMessage_transport_rejection (ch : FeishuChannel number) (w : World number)
    (msg : FeishuMessage number) (options : SendMessageOptions)
    (request : Request) (reason : string) :
  requests (events (snd (send ch w msg options))) = [request] ->
  fetch w request = RejectedWith reason ->
  fst (send ch w msg options) = Throw (Rejected reason)
  /\ body request
     = JSON_stringify (value_of_message (message (snd (send ch w msg options)))) 0.
Proof.
  rewrite call_stages.
  destruct (truthy (webhook options)) as [u|]; [|discriminate].
  destruct (normalize JSON_parse msg) as [m1|e]; [|discriminate].
  cbn [fst snd events requests message]. intros H Hf. inversion H; subst.
  unfold result_of. rewrite Hf. split; reflexivity.
Qed.

(** X5: a refusal whose body is the JSON null ends in a TypeError, not in
    a delivery error: reading msg of null throws. *)
Theorem sendMessage_null_body (ch : FeishuChannel number) (w : World number)
    (msg : FeishuMessage number) (options : SendMessageOptions)
    (request : Request) (response : Response number) :
  requests (events (snd (send ch w msg options))) = [request] ->
  fetch w request = Fulfilled response ->
  ok response = false ->
  json response = Fulfilled JNull ->
  fst (send ch w msg options) = Throw TypeError
  /\ category TypeError = None.
Proof.
  rewrite call_stages.
  destruct (truthy (webhook options)) as [u|]; [|discriminate].
  destruct (normalize JSON_parse msg) as [m1|e]; [|discriminate].
  cbn [fst snd events requests]. intros H Hf Hok Hj. inversion H; subst.
  unfold result_of. rewrite Hf, Hok, Hj. split; reflexivity.
Qed.

End Further.

(** ** Calls on one channel and on one message *)

Section Composition.

Context {number : Type}.
Variable Number_toString : number -> string.
Variable JSON_parse : string -> option (JSValue number).
Variable JSON_stringify : JSValue number -> Z -> string.

Local Abbreviation send := (call Number_toString JSON_parse JSON_stringify).
Local Abbreviation fresh := (new_FeishuChannel JSON_stringify).

(** What the caller's message is after a call that left events. *)
Lemma call_sent (ch : FeishuChannel number) (w : World number)
    (msg : FeishuMessage number) (options : SendMessageOptions) :
  events (snd (send ch w msg options)) <> [] ->
  exists m1 : FeishuMessage number,
    normalize JSON_parse msg = Normal m1
    /\ message (snd (send ch w msg options)) = signed w (secret options) m1.
Proof.
  rewrite call_stages.
  destruct (truthy (webhook options)) as [u|]; [|intros H; now elim H].
  destruct (normalize JSON_parse msg) as [m1|e]; [|intros H; now elim H].
  intros _. exists m1. split; reflexivity.
Qed.

Lemma call_message (ch : FeishuChannel number) (w : World number)
    (msg : FeishuMessage number) (options : SendMessageOptions) :
  message (snd (send ch w msg options)) = msg
  \/ exists m1 : FeishuMessage number,
       normalize JSON_parse msg = Normal m1
       /\ message (snd (send ch w msg options)) = signed w (secret options) m1.
Proof.
  rewrite call_stages.
  destruct (truthy (webhook options)) as [u|]; [|now left].
  destruct (normalize JSON_parse msg) as [m1|e]; [|now left].
  right. exists m1. split; reflexivity.
Qed.

Lemma signed_fields (w : World number) (x : option string) (m : FeishuMessage number) :
  msg_type (signed w x m) = msg_type m /\ content (signed w x m) = content m.
Proof.
  unfold signed. destruct (truthy x); split; reflexivity.
Qed.

Lemma normalize_fields (msg m1 : FeishuMessage number) :
  normalize JSON_parse msg = Normal m1 ->
  text (content m1) = text (content msg)
  /\ option_map (fun p => title (zh_cn p)) (post (content m1))
     = option_map (fun p => title (zh_cn p)) (post (content msg))
  /\ match msg_type msg with
     | MsgPost => True
     | _ => post (content m1) = post (content msg)
     end
  /\ match msg_type msg with
     | MsgInteractive => True
     | _ => card (content m1) = card (content msg)
     end.
Proof.
  unfold normalize.
  destruct (msg_type msg).
  - intros H; inversion H; subst. auto.
  - destruct (post_content msg) as [[|b|n|s|items|props]|];
      try (intros H; inversion H; subst; now auto).
    destruct (JSON_parse s) as [v|]; intros H; inversion H; subst.
    cbn [set_post_content content text post card].
    repeat split; auto. now destruct (post (content msg)).
  - destruct (card (content msg)) as [[|b|n|s|items|props]|];
      try (intros H; inversion H; subst; now auto).
    destruct (JSON_parse s) as [v|]; intros H; inversion H; subst.
    cbn [set_card content text post card]. auto.
Qed.

(** X6: whatever the arguments and however the call ends, it leaves the
    message's msg_type, its text and the title of its post as they were; it
    writes the post only in a post message and the card only in an
    interactive one; and without a secret that passes the test it leaves
    timestamp and sign as they were. *)
Theorem sendMessage_keeps_fields (ch : FeishuChannel number) (w : World number)
    (msg : FeishuMessage number) (options : SendMessageOptions) :
  msg_type (message (snd (send ch w msg options))) = msg_type msg
  /\ text (content (message (snd (send ch w msg options)))) = text (content msg)
  /\ option_map (fun p => title (zh_cn p))
                (post (content (message (snd (send ch w msg options)))))
     = option_map (fun p => title (zh_cn p)) (post (content msg))
  /\ match msg_type msg with
     | MsgPost => True
     | _ => post (content (message (snd (send ch w msg options))))
            = post (content msg)
     end
  /\ match msg_type msg with
     | MsgInteractive => True
     | _ => card (content (message (snd (send ch w msg options))))
            = card (content msg)
     end
  /\ match truthy (secret options) with
     | Some _ => True
     | None => timestamp (message (snd (send ch w msg options))) = timestamp msg
               /\ sign (message (snd (send ch w msg options))) = sign msg
     end.
Proof.
  destruct (call_message ch w msg options) as [-> | (m1 & Hn & ->)].
  - repeat split; auto; destruct (msg_type msg); auto;
      destruct (truthy (secret options)); auto.
  - destruct (signed_fields w (secret options) m1) as [Ht Hc].
    destruct (normalize_keeps _ _ _ Hn) as (Hty & Hts & Hsg).
    destruct (normalize_fields _ _ Hn) as (H1 & H2 & H3 & H4).
    rewrite Ht, Hc, Hty. repeat split; auto.
    unfold signed. destruct (truthy (secret options)); auto.
Qed.

Lemma step_keeps (ch : FeishuChannel number) (c : Call number) :
  snd (step Number_toString JSON_parse JSON_stringify ch c) = ch.
Proof.
  destruct c as [| |w msg options]; cbn [step snd]; try reflexivity.
  pose proof (call_this Number_toString JSON_parse JSON_stringify ch w msg options) as Hc.
  destruct (send ch w msg options) as [r st]. exact Hc.
Qed.

(** X13: in a sequence of calls on one channel no call changes what a later
    one answers: each reply is the reply the call gets on the channel as it
    was built. *)
Theorem run_history_free (calls : list (Call number)) :
  fst (run Number_toString JSON_parse JSON_stringify fresh calls)
  = map (fun c => fst (step Number_toString JSON_parse JSON_stringify fresh c)) calls.
Proof.
  induction calls as [|c rest IH]; [reflexivity|].
  cbn [run map].
  pose proof (step_keeps fresh c) as Hs.
  destruct (step Number_toString JSON_parse JSON_stringify fresh c) as [r ch'].
  cbn [snd] in Hs. subst ch'.
  destruct (run Number_toString JSON_parse JSON_stringify fresh rest) as [rs ch''].
  cbn [fst] in *. now rewrite IH.
Qed.

(** X14: after any sequence of calls, every getLabel returned the label of
    the initialiser. *)
Theorem getLabel_fixed (calls : list (Call number)) :
  Forall (fun s => s = "飞书群机器人")
         (labels_seen (fst (run Number_toString JSON_parse JSON_stringify fresh calls))).
Proof.
  rewrite run_history_free.
  induction calls as [|c rest IH]; [constructor|].
  cbn [map]. destruct c as [| |w msg options]; cbn [step fst labels_seen].
  - constructor; [reflexivity | exact IH].
  - exact IH.
  - destruct (send fresh w msg options). exact IH.
Qed.

(** X15: the templates and the message variants correspond one to one: each
    msg_type has exactly one template of its tag, and every template has the
    tag of a msg_type. *)
Theorem template_per_msg_type :
  (forall t : MsgType,
      exists tpl : MessageTemplate number,
        filter (fun tpl => String.eqb (template_type tpl) (msg_type_tag t))
               (getTemplates fresh) = [tpl])
  /\ map template_type (getTemplates fresh)
     = map msg_type_tag [MsgText; MsgPost; MsgInteractive].
Proof.
  split; [|reflexivity].
  intros [| |]; eexists; reflexivity.
Qed.

(** X10: with a secret that passes the test, the timestamp a call leaves in
    the message is a decimal numeral that reads back as the whole seconds of
    the clock: the number of milliseconds divided by 1000, rounded down. *)
Theorem sendMessage_timestamp_seconds (ch : FeishuChannel number) (w : World number)
    (msg : FeishuMessage number) (options : SendMessageOptions) (k : string) :
  secret options = Some k -> k <> EmptyString ->
  events (snd (send ch w msg options)) <> [] ->
  exists (ts : string) (n : Z),
    timestamp (message (snd (send ch w msg options))) = Some ts
    /\ read_decimal ts = Some n
    /\ 1000 * n <= Date_now w < 1000 * n + 1000.
Proof.
  intros Hk Hne He.
  destruct (call_sent ch w msg options He) as (m1 & _ & ->).
  exists (toString (Date_now w / 1000)), (Date_now w / 1000).
  unfold signed. rewrite (truthy_some _ _ Hk Hne).
  split; [reflexivity|]. split; [apply toString_reads_back|].
  pose proof (Z.mul_div_le (Date_now w) 1000 ltac:(lia)).
  pose proof (Z.mul_succ_div_gt (Date_now w) 1000 ltac:(lia)).
  lia.
Qed.

(** X7: a message object sent once with a secret and then sent again.
    Without a secret the second request still carries the timestamp and the
    signature of the first call; with a secret they are replaced by those of
    the second call. *)
Theorem sendMessage_resend (ch : FeishuChannel number) (w1 w2 : World number)
    (msg : FeishuMessage number) (o1 o2 : SendMessageOptions) (k : string) :
  secret o1 = Some k -> k <> EmptyString ->
  events (snd (send ch w1 msg o1)) <> [] ->
  events (snd (send ch w2 (message (snd (send ch w1 msg o1))) o2)) <> [] ->
  match truthy (secret o2) with
  | None =>
      member "timestamp"
        (value_of_message
           (message (snd (send ch w2 (message (snd (send ch w1 msg o1))) o2))))
      = Some (JStr (toString (Date_now w1 / 1000)))
      /\ exists sg : string,
           generateFeishuSign k (toString (Date_now w1 / 1000)) = Normal sg
           /\ member "sign"
                (value_of_message
                   (message (snd (send ch w2 (message (snd (send ch w1 msg o1))) o2))))
              = Some (JStr sg)
  | Some k2 =>
      member "timestamp"
        (value_of_message
           (message (snd (send ch w2 (message (snd (send ch w1 msg o1))) o2))))
      = Some (JStr (toString (Date_now w2 / 1000)))
      /\ exists sg : string,
           generateFeishuSign k2 (toString (Date_now w2 / 1000)) = Normal sg
           /\ member "sign"
                (value_of_message
                   (message (snd (send ch w2 (message (snd (send ch w1 msg o1))) o2))))
              = Some (JStr sg)
  end.
Proof.
  intros Hk Hne He1 He2.
  destruct (call_sent _ _ _ _ He2) as (m2 & Hn2 & ->).
  destruct (call_sent _ _ _ _ He1) as (m1 & Hn1 & Hm1).
  rewrite Hm1 in Hn2.
  destruct (normalize_keeps _ _ _ Hn2) as (_ & Hts & Hsg).
  rewrite member_timestamp, member_sign.
  unfold signed in Hts, Hsg. rewrite (truthy_some _ _ Hk Hne) in Hts, Hsg.
  cbn [set_sign set_timestamp timestamp sign] in Hts, Hsg.
  unfold signed.
  destruct (truthy (secret o2)) as [k2|] eqn:Hk2.
  - cbn [set_sign set_timestamp timestamp sign option_map].
    split; [reflexivity|].
    exists (source_sign k2 (toString (Date_now w2 / 1000))). split; [|reflexivity].
    now apply (generateFeishuSign_truthy (secret o2)).
  - rewrite Hts, Hsg. cbn [option_map]. split; [reflexivity|].
    exists (source_sign k (toString (Date_now w1 / 1000))). split; [|reflexivity].
    now apply generateFeishuSign_source.
Qed.

(** X8: a message whose post content or card came as a string and was
    parsed to a value that is not a string is not parsed when the object is
    sent again: the second call is the same under any other parser. *)
Theorem sendMessage_resend_not_reparsed (ch : FeishuChannel number)
    (w1 w2 : World number) (msg : FeishuMessage number) (o1 o2 : SendMessageOptions)
    (s : string) (v : JSValue number)
    (parse' : string -> option (JSValue number)) :
  (msg_type msg = MsgPost /\ post_content msg = Some (JStr s))
  \/ (msg_type msg = MsgInteractive /\ card (content msg) = Some (JStr s)) ->
  JSON_parse s = Some v ->
  typeof (Some v) <> "string" ->
  events (snd (send ch w1 msg o1)) <> [] ->
  call Number_toString parse' JSON_stringify ch w2 (message (snd (send ch w1 msg o1))) o2
  = send ch w2 (message (snd (send ch w1 msg o1))) o2.
Proof.
  intros Hv Hp Hty He.
  destruct (call_sent _ _ _ _ He) as (m1 & Hn & ->).
  destruct (signed_fields w1 (secret o1) m1) as [Hmt Hc].
  apply call_parser_free; apply normalize_structured;
    unfold post_content; rewrite Hmt, Hc;
    unfold normalize in Hn;
    destruct Hv as [[Ht Hf] | [Ht Hf]]; rewrite Ht, Hf, Hp in Hn;
    inversion Hn; subst; cbn [set_post_content set_card msg_type content post card].
  - left. split; [exact Ht|]. unfold post_content in Hf.
    destruct (post (content msg)); [exact Hty | discriminate].
  - right. split; [exact Ht | exact Hty].
  - left. split; [exact Ht|]. unfold post_content in Hf.
    destruct (post (content msg)); [exact Hty | discriminate].
  - right. split; [exact Ht | exact Hty].
Qed.

(** X9: a post content or card that is the JSON text of a string is decoded
    once per call: sent twice, the field holds what parsing the parsed
    string gives. *)
Theorem sendMessage_decodes_again (ch : FeishuChannel number)
    (w1 w2 : World number) (msg : FeishuMessage number) (o1 o2 : SendMessageOptions)
    (u2 s s' : string) (v : JSValue number) :
  JSON_parse s = Some (JStr s') ->
  JSON_parse s' = Some v ->
  events (snd (send ch w1 msg o1)) <> [] ->
  webhook o2 = Some u2 -> u2 <> EmptyString ->
  match msg_type msg with
  | MsgText => True
  | MsgPost =>
      post_content msg = Some (JStr s) ->
      post_content (message (snd (send ch w2 (message (snd (send ch w1 msg o1))) o2)))
      = Some v
  | MsgInteractive =>
      card (content msg) = Some (JStr s) ->
      card (content (message (snd (send ch w2 (message (snd (send ch w1 msg o1))) o2))))
      = Some v
  end.
Proof.
  intros Hp Hp' He Hw Hne.
  destruct (call_sent _ _ _ _ He) as (m1 & Hn & ->).
  rewrite call_stages, (truthy_some _ _ Hw Hne).
  destruct (msg_type msg) eqn:Hty; [exact I| |]; intros Hf.
  - assert (Hm1 : m1 = set_post_content (JStr s') msg).
    { unfold normalize in Hn. rewrite Hty, Hf, Hp in Hn. now inversion Hn. }
    subst m1. unfold post_content in Hf.
    destruct (post (content msg)) as [p|] eqn:Hpost; [|discriminate].
    assert (Hn2 : normalize JSON_parse
                    (signed w1 (secret o1) (set_post_content (JStr s') msg))
                  = Normal (set_post_content v
                              (signed w1 (secret o1) (set_post_content (JStr s') msg)))).
    { unfold normalize, post_content.
      destruct (signed_fields w1 (secret o1) (set_post_content (JStr s') msg))
        as [-> ->].
      cbn [set_post_content msg_type content post]. rewrite Hty, Hpost.
      cbn [option_map zh_cn zh_content]. now rewrite Hp'. }
    rewrite Hn2. cbn [snd message]. unfold post_content.
    destruct (signed_fields w2 (secret o2)
                (set_post_content v
                   (signed w1 (secret o1) (set_post_content (JStr s') msg))))
      as [_ ->].
    cbn [set_post_content content post].
    destruct (signed_fields w1 (secret o1) (set_post_content (JStr s') msg))
      as [_ ->].
    cbn [set_post_content content post]. rewrite Hpost. reflexivity.
  - assert (Hm1 : m1 = set_card (JStr s') msg).
    { unfold normalize in Hn. rewrite Hty, Hf, Hp in Hn. now inversion Hn. }
    subst m1.
    assert (Hn2 : normalize JSON_parse (signed w1 (secret o1) (set_card (JStr s') msg))
                  = Normal (set_card v
                              (signed w1 (secret o1) (set_card (JStr s') msg)))).
    { unfold normalize.
      destruct (signed_fields w1 (secret o1) (set_card (JStr s') msg)) as [-> ->].
      cbn [set_card msg_type content card]. rewrite Hty. now rewrite Hp'. }
    rewrite Hn2. cbn [snd message].
    destruct (signed_fields w2 (secret o2)
                (set_card v (signed w1 (secret o1) (set_card (JStr s') msg))))
      as [_ ->].
    reflexivity.
Qed.

End Composition.

(** ** Further runs on sample objects *)

Lemma sendMessage_accepted_witness :
  fst (Sample.send Sample.channel Scenario.early Scenario.hello Sample.unsigned)
  = Normal Sample.accepted.
Proof.
  apply (sendMessage_accepted Json.Number_toString Json.JSON_parse Json.JSON_stringify
           Sample.channel Scenario.early Scenario.hello Sample.unsigned
           Scenario.hello_request Sample.accepted);
    vm_compute; reflexivity.
Defined.

Lemma sendMessage_transport_rejection_witness :
  fst (Sample.send Sample.channel Scenario.offline Scenario.hello Sample.unsigned)
  = Throw (Rejected "TypeError").
Proof.
  apply (sendMessage_transport_rejection
           Json.Number_toString Json.JSON_parse Json.JSON_stringify
           Sample.channel Scenario.offline Scenario.hello Sample.unsigned
           Scenario.hello_request "TypeError");
    vm_compute; reflexivity.
Defined.

Lemma sendMessage_null_body_witness :
  fst (Sample.send Sample.channel (Sample.world 0 Scenario.null_body)
                   Scenario.hello Sample.unsigned)
  = Throw TypeError.
Proof.
  apply (sendMessage_null_body Json.Number_toString Json.JSON_parse Json.JSON_stringify
           Sample.channel (Sample.world 0 Scenario.null_body)
           Scenario.hello Sample.unsigned
           Scenario.hello_request Scenario.null_body);
    vm_compute; reflexivity.
Defined.

Lemma sendMessage_timestamp_seconds_witness :
  exists (ts : string) (n : Z),
    timestamp (message (snd (Sample.send Sample.channel Scenario.early Scenario.hello
                                         (Sample.with_secret "abc"))))
    = Some ts
    /\ read_decimal ts = Some n
    /\ 1000 * n <= 1700000000123 < 1000 * n + 1000.
Proof.
  apply (sendMessage_timestamp_seconds
           Json.Number_toString Json.JSON_parse Json.JSON_stringify
           Sample.channel Scenario.early Scenario.hello (Sample.with_secret "abc") "abc");
    [reflexivity | discriminate | vm_compute; discriminate].
Defined.

Lemma sendMessage_resend_witness :
  member "timestamp"
    (value_of_message
       (message
          (snd (Sample.send Sample.channel Scenario.late
                  (message (snd (Sample.send Sample.channel Scenario.early Scenario.hello
                                             (Sample.with_secret "abc"))))
                  Sample.unsigned))))
  = Some (JStr "1700000000").
Proof.
  refine (proj1 (sendMessage_resend
                   Json.Number_toString Json.JSON_parse Json.JSON_stringify
                   Sample.channel Scenario.early Scenario.late Scenario.hello
                   (Sample.with_secret "abc") Sample.unsigned "abc"
                   eq_refl _ _ _));
    [discriminate | vm_compute; discriminate | vm_compute; discriminate].
Defined.

Lemma sendMessage_resend_not_reparsed_witness :
  call Json.Number_toString (fun _ => None) Json.JSON_stringify
       Sample.channel Scenario.late
       (message (snd (Sample.send Sample.channel Scenario.early
                                  (Sample.post_message (JStr Sample.blocks_text))
                                  Sample.unsigned)))
       Sample.unsigned
  = Sample.send Sample.channel Scenario.late
      (message (snd (Sample.send Sample.channel Scenario.early
                                 (Sample.post_message (JStr Sample.blocks_text))
                                 Sample.unsigned)))
      Sample.unsigned.
Proof.
  apply (sendMessage_resend_not_reparsed
           Json.Number_toString Json.JSON_parse Json.JSON_stringify
           Sample.channel Scenario.early Scenario.late
           (Sample.post_message (JStr Sample.blocks_text))
           Sample.unsigned Sample.unsigned Sample.blocks_text Sample.blocks).
  - left. split; reflexivity.
  - vm_compute. reflexivity.
  - discriminate.
  - vm_compute. discriminate.
Defined.

Lemma sendMessage_decodes_again_witness :
  post_content
    (message
       (snd (Sample.send Sample.channel Scenario.late
               (message (snd (Sample.send Sample.channel Scenario.early
                                          (Sample.post_message (JStr Scenario.quoted_blocks))
                                          Sample.unsigned)))
               Sample.unsigned)))
  = Some (JArr [JArr []]).
Proof.
  refine (sendMessage_decodes_again
            Json.Number_toString Json.JSON_parse Json.JSON_stringify
            Sample.channel Scenario.early Scenario.late
            (Sample.post_message (JStr Scenario.quoted_blocks))
            Sample.unsigned Sample.unsigned Sample.hook
            Scenario.quoted_blocks "[[]]" (JArr [JArr []])
            _ _ _ eq_refl _ eq_refl);
    [vm_compute; reflexivity | vm_compute; reflexivity
     | vm_compute; discriminate | discriminate].
Defined.
